(** * pyrad.proc.process_aux: dataset dispatch and point measurements

    A shallow embedding of [pyrad/proc/process_aux.py]:
    [get_process_type], [process_raw], [process_save_radar] and
    [process_point_measurement], with the properties the specification
    states about them.

    Conventions of the embedding.
    - A Python call either returns a value or raises: [outcome].
    - [warnings.warn] appends a message to a log that is returned next to
      the outcome (the default warning filter prints and continues).
    - A Python float is the rational number it stands for ([Q]).  The
      subtractions and the addition of the bin search round their exact
      result to the nearest double ([Np.round64]: 53 significant bits, ties
      to even); the exponent is not bounded, so overflow, underflow, NaN
      and infinities are outside the model.  [abs], [>], [np.min] and
      [np.argmin] are exact on doubles: [Qabs], [Np.Qgtb] and the two
      scans compare the numbers themselves.  The height formula of
      [geographic_point] is kept as it is written; its value is only
      handed to [cartesian_to_antenna], which is a parameter.
    - numpy arrays are lists; a reduction of an empty array and a shape
      mismatch raise [ValueError], an index out of range [IndexError].
    - Functions of other packages (pyart, numpy's transcendental functions)
      and the two helpers of [pyrad.io.io_aux] are fields of [Extern]. *)

From Stdlib Require Import QArith Qabs Qpower Lqa ZArith String List Lia.
From stdpp Require Import gmap strings list fin_maps.

Local Open Scope string_scope.

(** ** Python outcomes *)

Inductive exn : Type :=
| ValueError (msg : string)
| NameError (name : string)
| IndexError
| KeyError (key : string)
| AttributeError.

Inductive outcome (A : Type) : Type :=
| Return (a : A)
| Raise (e : exn).

Arguments Return {A} a.
Arguments Raise {A} e.

(** ** The operation registry *)

Module Registry.

(** [get_process_type], lines 31-118: [dsformat] starts as ['VOL'] and the
    chain of comparisons picks the function name; two branches overwrite
    [dsformat]; the final [else] raises. *)
Definition get_process_type (dataset_type : string)
  : outcome (string * string) :=
  let dsformat := "VOL" in
  if String.eqb dataset_type "RAW" then
    Return ("process_raw", dsformat)
  else if String.eqb dataset_type "NCVOL" then
    Return ("process_save_radar", dsformat)
  else if String.eqb dataset_type "PWR" then
    Return ("process_signal_power", dsformat)
  else if String.eqb dataset_type "SNR" then
    Return ("process_snr", dsformat)
  else if String.eqb dataset_type "RHOHV_CORRECTION" then
    Return ("process_correct_noise_rhohv", dsformat)
  else if String.eqb dataset_type "BIAS_CORRECTION" then
    Return ("process_correct_bias", dsformat)
  else if String.eqb dataset_type "L" then
    Return ("process_l", dsformat)
  else if String.eqb dataset_type "CDR" then
    Return ("process_cdr", dsformat)
  else if String.eqb dataset_type "SAN" then
    Return ("process_echo_id", dsformat)
  else if String.eqb dataset_type "ECHO_FILTER" then
    Return ("process_echo_filter", dsformat)
  else if String.eqb dataset_type "SNR_FILTER" then
    Return ("process_filter_snr", dsformat)
  else if String.eqb dataset_type "VIS_FILTER" then
    Return ("process_filter_visibility", dsformat)
  else if String.eqb dataset_type "PHIDP0_ESTIMATE" then
    Return ("process_estimate_phidp0", dsformat)
  else if String.eqb dataset_type "PHIDP0_CORRECTION" then
    Return ("process_correct_phidp0", dsformat)
  else if String.eqb dataset_type "PHIDP_SMOOTH_1W" then
    Return ("process_smooth_phidp_single_window", dsformat)
  else if String.eqb dataset_type "PHIDP_SMOOTH_2W" then
    Return ("process_smooth_phidp_double_window", dsformat)
  else if String.eqb dataset_type "PHIDP_KDP_MAESAKA" then
    Return ("process_phidp_kdp_Maesaka", dsformat)
  else if String.eqb dataset_type "PHIDP_KDP_LP" then
    Return ("process_phidp_kdp_lp", dsformat)
  else if String.eqb dataset_type "KDP_LEASTSQUARE_1W" then
    Return ("process_kdp_leastsquare_single_window", dsformat)
  else if String.eqb dataset_type "KDP_LEASTSQUARE_2W" then
    Return ("process_kdp_leastsquare_double_window", dsformat)
  else if String.eqb dataset_type "ATTENUATION" then
    Return ("process_attenuation", dsformat)
  else if String.eqb dataset_type "RAINRATE" then
    Return ("process_rainrate", dsformat)
  else if String.eqb dataset_type "HYDROCLASS" then
    Return ("process_hydroclass", dsformat)
  else if String.eqb dataset_type "SELFCONSISTENCY_KDP_PHIDP" then
    Return ("process_selfconsistency_kdp_phidp", dsformat)
  else if String.eqb dataset_type "SELFCONSISTENCY_BIAS" then
    Return ("process_selfconsistency_bias", dsformat)
  else if String.eqb dataset_type "RHOHV_RAIN" then
    Return ("process_rhohv_rain", dsformat)
  else if String.eqb dataset_type "ZDR_RAIN" then
    Return ("process_zdr_rain", dsformat)
  else if String.eqb dataset_type "MONITORING_RHOHV" then
    Return ("process_monitoring_rhohv", dsformat)
  else if String.eqb dataset_type "MONITORING_ZDR" then
    Return ("process_monitoring_zdr", dsformat)
  else if String.eqb dataset_type "SUN_HITS" then
    let dsformat := "SUN_HITS" in
    Return ("process_sun_hits", dsformat)
  else if String.eqb dataset_type "POINT_MEASUREMENT" then
    let dsformat := "TIMESERIES" in
    Return ("process_point_measurement", dsformat)
  else
    Raise (ValueError ("ERROR: Unknown dataset type " ++ dataset_type)).

(** The dataset types the chain compares against, in source order. *)
Definition recognized : list string :=
  [ "RAW"; "NCVOL"; "PWR"; "SNR"; "RHOHV_CORRECTION"; "BIAS_CORRECTION";
    "L"; "CDR"; "SAN"; "ECHO_FILTER"; "SNR_FILTER"; "VIS_FILTER";
    "PHIDP0_ESTIMATE"; "PHIDP0_CORRECTION"; "PHIDP_SMOOTH_1W";
    "PHIDP_SMOOTH_2W"; "PHIDP_KDP_MAESAKA"; "PHIDP_KDP_LP";
    "KDP_LEASTSQUARE_1W"; "KDP_LEASTSQUARE_2W"; "ATTENUATION"; "RAINRATE";
    "HYDROCLASS"; "SELFCONSISTENCY_KDP_PHIDP"; "SELFCONSISTENCY_BIAS";
    "RHOHV_RAIN"; "ZDR_RAIN"; "MONITORING_RHOHV"; "MONITORING_ZDR";
    "SUN_HITS"; "POINT_MEASUREMENT" ].

End Registry.

(** ** numpy on lists of rationals *)

Module Np.
Local Open Scope Q_scope.

(** [n / d] scaled by [2 ^ (- e)], as a numerator and a denominator. *)
Definition scaled (n d : positive) (e : Z) : Z * Z :=
  if (0 <=? e)%Z then (Zpos n, (Zpos d * 2 ^ e)%Z)
  else ((Zpos n * 2 ^ (- e))%Z, Zpos d).

(** The double nearest to the positive rational [n / d]: the exponent [e]
    is the one for which [n / d / 2 ^ e] lies in [[2 ^ 52, 2 ^ 53)]; that
    quotient is rounded to an integer [m'], a tie going to the even one;
    the result is [m' * 2 ^ e]. *)
Definition round_pos (n d : positive) : Q :=
  let e0 := (Z.log2 (Zpos n) - Z.log2 (Zpos d) - 52)%Z in
  let '(a0, b0) := scaled n d e0 in
  let e := if (a0 / b0 <? 2 ^ 52)%Z then (e0 - 1)%Z else e0 in
  let '(a, b) := scaled n d e in
  let m := (a / b)%Z in
  let r := (a mod b)%Z in
  let m' :=
    match (2 * r ?= b)%Z with
    | Lt => m
    | Gt => (m + 1)%Z
    | Eq => if Z.even m then m else (m + 1)%Z
    end in
  Qred ((Zpos (Z.to_pos m') # 1) * 2 ^ e).

(** The result of a floating-point operation whose exact result is [q]:
    [q] rounded to the nearest double, in lowest terms. *)
Definition round64 (q : Q) : Q :=
  let r := Qred q in
  match Qnum r with
  | Z0 => 0
  | Zpos n => round_pos n (Qden r)
  | Zneg n => - round_pos n (Qden r)
  end.

Arguments round64 : simpl never.

(** [a > b] on doubles: the comparison of the two numbers. *)
Definition Qgtb (a b : Q) : bool := negb (Qle_bool a b).

(** [arr - s]: a scalar is broadcast over the array. *)
Definition sub_scalar (arr : list Q) (s : Q) : list Q :=
  List.map (fun a => round64 (a - s)) arr.

(** [np.abs(arr)]. *)
Definition abs (arr : list Q) : list Q := List.map Qabs arr.

Fixpoint zip_add (a b : list Q) : list Q :=
  match a, b with
  | x :: a', y :: b' => round64 (x + y) :: zip_add a' b'
  | _, _ => []
  end.

(** [a + b] for one-dimensional arrays: equal lengths add elementwise, a
    one-element array is broadcast, any other pair of shapes raises. *)
Definition add (a b : list Q) : outcome (list Q) :=
  if (length a =? length b)%nat then Return (zip_add a b)
  else match a, b with
       | [x], _ => Return (List.map (fun y => round64 (x + y)) b)
       | _, [y] => Return (List.map (fun x => round64 (x + y)) a)
       | _, _ =>
           Raise (ValueError "operands could not be broadcast together")
       end.

Fixpoint min_from (best : Q) (l : list Q) : Q :=
  match l with
  | [] => best
  | x :: t => min_from (if Qle_bool best x then best else x) t
  end.

(** [np.min(arr)]: the smallest element; an empty array raises. *)
Definition min (arr : list Q) : outcome Q :=
  match arr with
  | [] => Raise (ValueError "zero-size array to reduction operation")
  | x :: t => Return (min_from x t)
  end.

(** The scan behind [np.argmin]: [best] is the smallest value seen so far,
    [best_i] the first index where it was seen, [i] the index of the head
    of the remaining list.  Only a strictly smaller value replaces it. *)
Fixpoint argmin_from (best_i : nat) (best : Q) (i : nat) (l : list Q) : nat :=
  match l with
  | [] => best_i
  | x :: t =>
      if Qle_bool best x then argmin_from best_i best (S i) t
      else argmin_from i x (S i) t
  end.

(** [np.argmin(arr)]: the index of the first occurrence of the minimum. *)
Definition argmin (arr : list Q) : outcome nat :=
  match arr with
  | [] => Raise (ValueError "attempt to get argmin of an empty sequence")
  | x :: t => Return (argmin_from 0 x 1 t)
  end.

(** [arr[i]]. *)
Definition getitem {A : Type} (arr : list A) (i : nat) : outcome A :=
  match arr !! i with
  | Some a => Return a
  | None => Raise IndexError
  end.

(** [arr[i, j]] on a two-dimensional array stored by rows. *)
Definition getitem2 {A : Type} (arr : list (list A)) (i j : nat)
  : outcome A :=
  match arr !! i with
  | Some row => getitem row j
  | None => Raise IndexError
  end.

End Np.

(** ** Data model *)

(** A radar volume as the routines read it.  pyart keeps the radar position
    in one-element arrays and its geometry functions return one-element
    arrays for a single point; the embedding identifies such an array with
    its element, which is what the [[0]] selections of the source take. *)
Record Volume : Type := mkVolume {
  time_data : list Q;
  time_units : string;
  time_calendar : string;
  range_data : list Q;
  azimuth_data : list Q;
  elevation_data : list Q;
  longitude_data : Q;
  latitude_data : Q;
  altitude_data : Q;
  fields : gmap string (list (list Q))
}.

(** The configuration dictionary of a point measurement step, with the
    keywords the docstring lists. *)
Record DsCfg : Type := mkDsCfg {
  cfg_datatype : list string;
  cfg_latlon : bool;
  cfg_truealt : bool;
  cfg_lon : Q;
  cfg_lat : Q;
  cfg_alt : Q;
  cfg_ele : Q;
  cfg_azi : Q;
  cfg_rng : Q;
  cfg_AziTol : Q;
  cfg_EleTol : Q;
  cfg_RngTol : Q
}.

(** The projection parameters handed to pyart. *)
Record ProjParams : Type := mkProjParams {
  proj : string;
  lon_0 : Q;
  lat_0 : Q
}.

(** The value of [num2date(t, units, calendar)], kept symbolic. *)
Inductive datetime : Type :=
| Num2date (t : Q) (units calendar : string).

(** The dictionary [process_point_measurement] returns. *)
Record PointRecord : Type := mkPointRecord {
  value : Q;
  datatype : string;
  time : datetime;
  point_coordinates_WGS84_lon_lat_alt : Q * Q * Q;
  antenna_coordinates_az_el_r : Q * Q * Q;
  used_antenna_coordinates_az_el_r : Q * Q * Q
}.

(** What the module calls but does not define.  [get_datatype_fields] and
    [get_fieldname_pyart] belong to [pyrad.io.io_aux] and may raise; the
    pyart and numpy functions are taken as total. *)
Record Extern : Type := mkExtern {
  get_datatype_fields : string -> outcome (string * string * string * string);
  get_fieldname_pyart : string -> outcome string;
  geographic_to_cartesian : Q -> Q -> ProjParams -> Q * Q;
  cartesian_to_antenna : Q -> Q -> Q -> Q * Q * Q;
  np_sqrt : Q -> Q;
  np_cos : Q -> Q;
  np_sin : Q -> Q;
  np_pi : Q
}.

(** ** Calls that may warn *)

(** A warning text is a concatenation of literals and of [str(x)] for
    numbers [x]; the pieces are kept apart. *)
Inductive piece : Type :=
| Lit (s : string)
| Str (x : Q).

Definition message : Type := list piece.

(** A computation: its outcome and the warnings it emitted, oldest first. *)
Definition M (A : Type) : Type := (outcome A * list message)%type.

Definition ret {A : Type} (a : A) : M A := (Return a, []).
Definition raise {A : Type} (e : exn) : M A := (Raise e, []).
Definition warn (msg : message) : M unit := (Return tt, [msg]).
Definition lift {A : Type} (o : outcome A) : M A := (o, []).

Definition bind {A B : Type} (m : M A) (k : A -> M B) : M B :=
  match m with
  | (Return a, w) => let '(r, w') := k a in (r, (w ++ w')%list)
  | (Raise e, w) => (Raise e, w)
  end.

Declare Scope py_scope.
Delimit Scope py_scope with py.
Notation "'let*' x ':=' m 'in' k" := (bind m (fun x => k))
  (at level 10, x name, m at level 100, k at level 200) : py_scope.
Notation "'let*' ' p ':=' m 'in' k" :=
  (bind m (fun x => let 'p := x in k))
  (at level 10, p pattern, m at level 100, k at level 200) : py_scope.
Notation "m ';;' k" := (bind m (fun _ => k))
  (at level 100, k at level 200, right associativity) : py_scope.

(** A global name the module never binds: evaluating it raises. *)
Definition unbound_global {A : Type} (name : string) : M A :=
  raise (NameError name).

(** [obj.attr] where [obj] may be [None]. *)
Definition attr_of {A : Type} (obj : option A) : M A :=
  match obj with
  | Some a => ret a
  | None => raise AttributeError
  end.

(** [d[key]] on a dictionary. *)
Definition getkey {A : Type} (d : gmap string A) (key : string) : outcome A :=
  match d !! key with
  | Some a => Return a
  | None => Raise (KeyError key)
  end.

(** ** The processing routines *)

Section Routines.
Local Open Scope Q_scope.
Local Open Scope py_scope.

Variable E : Extern.

(** The text of the warning of lines 286-289, 294-297 and 302-305; [what]
    is ["azimuth"], ["elevation"] or ["range bin"] and [d] the distance. *)
Definition tolerance_message (what : string) (az el r d : Q) : message :=
  [ Lit " No radar bin found for point (az, el, r):(";
    Str az; Lit ", "; Str el; Lit ", "; Str r;
    Lit ("). Minimum distance to radar " ++ what ++ " "); Str d;
    Lit " larger than tolerance" ].

Definition field_message : message :=
  [ Lit "Unable to extract point measurement information. ";
    Lit "Field not available" ].

(** Lines 246-249: the projection is centred on the radar. *)
Definition projparams_of (radar : Volume) : ProjParams :=
  {| proj := "pyart_aeqd";
     lon_0 := longitude_data radar;
     lat_0 := latitude_data radar |}.

(** Lines 252-275, the branch [dscfg['latlon']] true: the point is given
    by longitude, latitude and altitude.  The result is
    [(lon, lat, alt, r, az, el)]. *)
Definition geographic_point
    (dscfg : DsCfg) (radar : Volume) (projparams : ProjParams)
  : Q * Q * Q * Q * Q * Q :=
  let lon := cfg_lon dscfg in
  let lat := cfg_lat dscfg in
  let alt := cfg_alt dscfg in
  let '(x, y) := geographic_to_cartesian E lon lat projparams in
  let alt_radar :=
    if negb (cfg_truealt dscfg) then
      let ke := 4 / 3 in
      let a := 6378100 in
      let re := a * ke in
      let elrad := cfg_ele dscfg * np_pi E / 180 in
      let r_ground := np_sqrt E (x ^ 2 + y ^ 2) in
      let r := r_ground / np_cos E elrad in
      altitude_data radar
      + np_sqrt E (r ^ 2 + re ^ 2 + 2 * r * re * np_sin E elrad) - re
    else cfg_alt dscfg in
  let '(r, az, el) :=
    cartesian_to_antenna E x y (alt_radar - altitude_data radar) in
  (lon, lat, alt, r, az, el).

(** Lines 277-282, the branch [dscfg['latlon']] false: the point is given
    in antenna coordinates.  The module imports [pyart] only as a module
    and never binds the names [antenna_to_cartesian] and
    [cartesian_to_geographic] it calls here. *)
Definition antenna_point
    (dscfg : DsCfg) (radar : Volume) (projparams : ProjParams)
  : M (Q * Q * Q * Q * Q * Q) :=
  let r := cfg_rng dscfg in
  let az := cfg_azi dscfg in
  let el := cfg_ele dscfg in
  let* '(x, y, alt) :=
    unbound_global (A := Q * Q * Q) "antenna_to_cartesian" in
  let* '(lon, lat) :=
    unbound_global (A := Q * Q) "cartesian_to_geographic" in
  ret (lon, lat, alt, r, az, el).

(** Lines 284-329: the three tolerance checks, the selection of the ray
    and of the range bin, and the record. *)
Definition locate_bin
    (dscfg : DsCfg) (radar : Volume) (field_name datatype : string)
    (point : Q * Q * Q * Q * Q * Q)
  : M (option PointRecord) :=
  let '(lon, lat, alt, r, az, el) := point in
  let* d_az :=
    lift (Np.min (Np.abs (Np.sub_scalar (azimuth_data radar) az))) in
  if Np.Qgtb d_az (cfg_AziTol dscfg) then
    warn (tolerance_message "azimuth" az el r d_az) ;;
    ret None
  else
  let* d_el :=
    lift (Np.min (Np.abs (Np.sub_scalar (elevation_data radar) el))) in
  if Np.Qgtb d_el (cfg_EleTol dscfg) then
    warn (tolerance_message "elevation" az el r d_el) ;;
    ret None
  else
  let* d_r := lift (Np.min (Np.abs (Np.sub_scalar (range_data radar) r))) in
  if Np.Qgtb d_r (cfg_RngTol dscfg) then
    warn (tolerance_message "range bin" az el r d_r) ;;
    ret None
  else
  let* dist :=
    lift (Np.add (Np.abs (Np.sub_scalar (azimuth_data radar) az))
                 (Np.abs (Np.sub_scalar (elevation_data radar) el))) in
  let* ind_ray := lift (Np.argmin dist) in
  let* ind_r :=
    lift (Np.argmin (Np.abs (Np.sub_scalar (range_data radar) r))) in
  let* data := lift (getkey (fields radar) field_name) in
  let* val := lift (Np.getitem2 data ind_ray ind_r) in
  let* t := lift (Np.getitem (time_data radar) ind_ray) in
  let time := Num2date t (time_units radar) (time_calendar radar) in
  let* used_az := lift (Np.getitem (azimuth_data radar) ind_ray) in
  let* used_el := lift (Np.getitem (elevation_data radar) ind_ray) in
  let* used_r := lift (Np.getitem (range_data radar) ind_r) in
  ret (Some {| value := val;
               datatype := datatype;
               time := time;
               point_coordinates_WGS84_lon_lat_alt := (lon, lat, alt);
               antenna_coordinates_az_el_r := (az, el, r);
               used_antenna_coordinates_az_el_r :=
                 (used_az, used_el, used_r) |}).

(** [process_point_measurement], lines 181-329. *)
Definition process_point_measurement
    (procstatus : Z) (dscfg : DsCfg) (radar : option Volume)
  : M (option PointRecord) :=
  if negb (procstatus =? 1)%Z then ret None else
  let* dt0 := lift (Np.getitem (cfg_datatype dscfg) 0) in
  let* '(datagroup, datatype, dataset, product) :=
    lift (get_datatype_fields E dt0) in
  let* field_name := lift (get_fieldname_pyart E datatype) in
  let* radar := attr_of radar in
  if negb (bool_decide (field_name ∈ dom (fields radar))) then
    warn field_message ;;
    ret None
  else
  let projparams := projparams_of radar in
  let* point :=
    if cfg_latlon dscfg then ret (geographic_point dscfg radar projparams)
    else antenna_point dscfg radar projparams in
  locate_bin dscfg radar field_name datatype point.

(** The field a configuration selects: the data type and the field name
    the two helpers of [pyrad.io.io_aux] return for it. *)
Definition selects (dscfg : DsCfg) (datatype field_name : string) : Prop :=
  exists dt0 datagroup dataset product,
    cfg_datatype dscfg !! 0%nat = Some dt0 /\
    get_datatype_fields E dt0
      = Return (datagroup, datatype, dataset, product) /\
    get_fieldname_pyart E datatype = Return field_name.

(** The antenna coordinates [(az, el, r)] requested in geographic mode. *)
Definition requested (dscfg : DsCfg) (radar : Volume) : Q * Q * Q :=
  let '(_, _, _, r, az, el) :=
    geographic_point dscfg radar (projparams_of radar) in
  (az, el, r).

End Routines.

(** ** Radar objects in the store

    [process_raw] and [process_save_radar] hand out [deepcopy(radar)], so
    what they do is a matter of object identity.  A radar object refers to
    its arrays by location; the store maps locations to array contents. *)

Module Heap.

Definition loc : Type := positive.

Inductive ndarray : Type :=
| Arr1 (d : list Q)
| Arr2 (d : list (list Q)).

(** A radar object whose array slots hold values of type [A]: locations
    for the object itself, array contents for a snapshot of it. *)
Record RadarOf (A : Type) : Type := mkRadar {
  r_time : A;
  r_time_units : string;
  r_time_calendar : string;
  r_range : A;
  r_azimuth : A;
  r_elevation : A;
  r_longitude : A;
  r_latitude : A;
  r_altitude : A;
  r_fields : list (string * A)
}.

Arguments mkRadar {A}.
Arguments r_time {A}.
Arguments r_time_units {A}.
Arguments r_time_calendar {A}.
Arguments r_range {A}.
Arguments r_azimuth {A}.
Arguments r_elevation {A}.
Arguments r_longitude {A}.
Arguments r_latitude {A}.
Arguments r_altitude {A}.
Arguments r_fields {A}.

Definition Radar : Type := RadarOf loc.

Definition radar_map {A B : Type} (f : A -> B) (r : RadarOf A) : RadarOf B :=
  {| r_time := f (r_time r);
     r_time_units := r_time_units r;
     r_time_calendar := r_time_calendar r;
     r_range := f (r_range r);
     r_azimuth := f (r_azimuth r);
     r_elevation := f (r_elevation r);
     r_longitude := f (r_longitude r);
     r_latitude := f (r_latitude r);
     r_altitude := f (r_altitude r);
     r_fields := List.map (fun kv => (fst kv, f (snd kv))) (r_fields r) |}.

(** The locations a radar object refers to. *)
Definition locs (r : Radar) : list loc :=
  [ r_time r; r_range r; r_azimuth r; r_elevation r;
    r_longitude r; r_latitude r; r_altitude r ]
  ++ List.map snd (r_fields r).

(** What a radar object holds in a given store. *)
Definition contents (σ : gmap loc ndarray) (r : Radar)
  : RadarOf (option ndarray) :=
  radar_map (fun l => σ !! l) r.

(** The state of a running [deepcopy]: the memo (original to copy) and the
    store. *)
Definition copy_state : Type := (gmap loc loc * gmap loc ndarray)%type.

(** Copy one array: an array already in the memo is not copied again,
    otherwise its content is stored at a fresh location. *)
Definition copy_array (l : loc) (st : copy_state) : loc * copy_state :=
  match fst st !! l with
  | Some l' => (l', st)
  | None =>
      match snd st !! l with
      | Some a =>
          let l' := fresh (dom (snd st)) in
          (l', (<[l := l']> (fst st), <[l' := a]> (snd st)))
      | None => (l, st)
      end
  end.

Fixpoint copy_fields (fs : list (string * loc)) (st : copy_state)
  : list (string * loc) * copy_state :=
  match fs with
  | [] => ([], st)
  | (k, l) :: fs' =>
      let '(l', st1) := copy_array l st in
      let '(fs'', st2) := copy_fields fs' st1 in
      ((k, l') :: fs'', st2)
  end.

(** [copy.deepcopy(radar)] run with an initial copy state. *)
Definition deepcopy_from (r : Radar) (st : copy_state) : Radar * copy_state :=
  let '(t, st) := copy_array (r_time r) st in
  let '(rg, st) := copy_array (r_range r) st in
  let '(az, st) := copy_array (r_azimuth r) st in
  let '(el, st) := copy_array (r_elevation r) st in
  let '(lon, st) := copy_array (r_longitude r) st in
  let '(lat, st) := copy_array (r_latitude r) st in
  let '(alt, st) := copy_array (r_altitude r) st in
  let '(fs, st) := copy_fields (r_fields r) st in
  ({| r_time := t;
      r_time_units := r_time_units r;
      r_time_calendar := r_time_calendar r;
      r_range := rg;
      r_azimuth := az;
      r_elevation := el;
      r_longitude := lon;
      r_latitude := lat;
      r_altitude := alt;
      r_fields := fs |}, st).

(** [copy.deepcopy(radar)]: starts from an empty memo; [deepcopy(None)] is
    [None]. *)
Definition deepcopy (radar : option Radar) (σ : gmap loc ndarray)
  : option Radar * gmap loc ndarray :=
  match radar with
  | None => (None, σ)
  | Some r =>
      let '(r', st) := deepcopy_from r (∅, σ) in
      (Some r', snd st)
  end.

(** [process_raw], lines 121-148. *)
Definition process_raw
    (procstatus : Z) (dscfg : DsCfg)
    (radar : option Radar) (σ : gmap loc ndarray)
  : option Radar * gmap loc ndarray :=
  if negb (procstatus =? 1)%Z then (None, σ) else
  let '(new_dataset, σ) := deepcopy radar σ in
  (new_dataset, σ).

(** [process_save_radar], lines 151-178. *)
Definition process_save_radar
    (procstatus : Z) (dscfg : DsCfg)
    (radar : option Radar) (σ : gmap loc ndarray)
  : option Radar * gmap loc ndarray :=
  if negb (procstatus =? 1)%Z then (None, σ) else
  let '(new_dataset, σ) := deepcopy radar σ in
  (new_dataset, σ).

(** Every array of the object is allocated. *)
Definition allocated (σ : gmap loc ndarray) (r : Radar) : Prop :=
  Forall (fun l => is_Some (σ !! l)) (locs r).

(** The volume a radar object denotes: what [process_point_measurement]
    reads.  One-element position arrays become their element. *)
Definition as_1d (a : option ndarray) : option (list Q) :=
  match a with Some (Arr1 d) => Some d | _ => None end.

Definition as_2d (a : option ndarray) : option (list (list Q)) :=
  match a with Some (Arr2 d) => Some d | _ => None end.

Definition as_scalar (a : option ndarray) : option Q :=
  match a with Some (Arr1 [x]) => Some x | _ => None end.

Fixpoint fields_of (fs : list (string * option ndarray))
  : option (gmap string (list (list Q))) :=
  match fs with
  | [] => Some ∅
  | (k, a) :: fs' =>
      match as_2d a, fields_of fs' with
      | Some d, Some m => Some (<[k := d]> m)
      | _, _ => None
      end
  end.

Definition volume_of (c : RadarOf (option ndarray)) : option Volume :=
  match as_1d (r_time c), as_1d (r_range c), as_1d (r_azimuth c),
        as_1d (r_elevation c), as_scalar (r_longitude c),
        as_scalar (r_latitude c), as_scalar (r_altitude c),
        fields_of (r_fields c) with
  | Some t, Some rg, Some az, Some el, Some lon, Some lat, Some alt, Some fs =>
      Some {| time_data := t;
              time_units := r_time_units c;
              time_calendar := r_time_calendar c;
              range_data := rg;
              azimuth_data := az;
              elevation_data := el;
              longitude_data := lon;
              latitude_data := lat;
              altitude_data := alt;
              fields := fs |}
  | _, _, _, _, _, _, _, _ => None
  end.

(** [l'] holds a copy of what [l] held in the store [σ0] the copy started
    from, at a location that store did not have. *)
Definition copied (σ0 σ : gmap loc ndarray) (l l' : loc) : Prop :=
  (l' ∉ dom σ0) /\ is_Some (σ0 !! l) /\ σ !! l' = σ0 !! l.

(** The invariant of a running [deepcopy] started in [σ0]: the store only
    grows, and the memo maps originals to their copies. *)
Definition copy_inv (σ0 : gmap loc ndarray) (st : copy_state) : Prop :=
  (σ0 ⊆ snd st) /\
  forall l l', fst st !! l = Some l' -> copied σ0 (snd st) l l'.

(** The memo never maps two originals to the same copy. *)
Definition memo_injective (st : copy_state) : Prop :=
  forall l1 l2 l', fst st !! l1 = Some l' -> fst st !! l2 = Some l' -> l1 = l2.

(** [r'] is a copy of [r]: same metadata and field names, every array a
    copy. *)
Definition copy_of (σ0 σ : gmap loc ndarray) (r r' : Radar) : Prop :=
  r_time_units r' = r_time_units r /\
  r_time_calendar r' = r_time_calendar r /\
  List.map fst (r_fields r') = List.map fst (r_fields r) /\
  Forall2 (copied σ0 σ) (locs r) (locs r').

End Heap.

(** ** Vocabulary of the statements *)

Section Vocabulary.
Local Open Scope Q_scope.

(** The distance [|a - x|] as the code computes it: the difference is
    rounded to a double, its absolute value is exact. *)
Definition distance (a x : Q) : Q := Qabs (Np.round64 (a - x)).

(** [|a_i - x|] for every entry [a_i] of an axis, as computed. *)
Definition distances (axis : list Q) (x : Q) : list Q :=
  (fun a => distance a x) <$> axis.

(** [|azimuth_i - az| + |elevation_i - el|] for every ray [i], as
    computed: the sum of the two computed distances, rounded. *)
Definition combined_distances (radar : Volume) (az el : Q) : list Q :=
  zip_with (fun a e => Np.round64 (distance a az + distance e el))
           (azimuth_data radar) (elevation_data radar).

(** [d] is the minimum of the list [ds]. *)
Definition is_minimum (ds : list Q) (d : Q) : Prop :=
  d ∈ ds /\ forall d', d' ∈ ds -> d <= d'.

(** [i] is the argmin of [ds], ties resolved by the lowest index. *)
Definition is_first_argmin (ds : list Q) (i : nat) : Prop :=
  exists d, ds !! i = Some d /\
    (forall j d', ds !! j = Some d' -> d <= d') /\
    (forall j d', (j < i)%nat -> ds !! j = Some d' -> d < d').

(** Some entry of the axis is within [tol] of [x]: the minimum computed
    distance does not exceed the tolerance. *)
Definition within_tolerance (axis : list Q) (x tol : Q) : Prop :=
  exists d, d ∈ distances axis x /\ d <= tol.

(** The axis has entries and all are farther than [tol] from [x]: the
    minimum computed distance exceeds the tolerance. *)
Definition beyond_tolerance (axis : list Q) (x tol : Q) : Prop :=
  axis <> [] /\ forall d, d ∈ distances axis x -> tol < d.

(** The invariant of a volume with respect to one of its fields: one
    azimuth, elevation and time per ray, one row of data per ray, one
    value per range bin in every row. *)
Definition well_shaped (radar : Volume) (data : list (list Q)) : Prop :=
  length (elevation_data radar) = length (azimuth_data radar) /\
  length (time_data radar) = length (azimuth_data radar) /\
  length data = length (azimuth_data radar) /\
  Forall (fun row => length row = length (range_data radar)) data.

(** The shape of every run: no warning, or one warning and no result. *)
Definition quiet_or_warned {A : Type} (run : M (option A)) : Prop :=
  snd run = []%list \/ (fst run = Return None /\ exists msg, snd run = [msg]%list).

End Vocabulary.

(** ** A test double for the external functions

    Stand-ins used to run the routines on concrete inputs: the projection
    and the antenna transform pass their arguments through, so that a
    query [(lon, lat, alt)] above a radar at altitude 0 is the antenna
    point [r = lon], [az = lat], [el = alt]. *)

Module Double.
Local Open Scope Q_scope.

Definition extern : Extern :=
  {| get_datatype_fields := fun s => Return ("RAINBOW", s, "", "");
     get_fieldname_pyart := fun s =>
       if String.eqb s "dBZ" then Return "reflectivity"
       else Raise (ValueError ("ERROR: Unknown data type " ++ s));
     geographic_to_cartesian := fun lon lat _ => (lon, lat);
     cartesian_to_antenna := fun x y z => (x, y, z);
     np_sqrt := fun x => x;
     np_cos := fun _ => 1;
     np_sin := fun _ => 0;
     np_pi := 355 # 113 |}.

(** Two rays at azimuth 10 and elevations 1 and 5, range bins at 500 m and
    1500 m, one field. *)
Definition volume : Volume :=
  {| time_data := [0; 30];
     time_units := "seconds since 2016-01-01T00:00:00Z";
     time_calendar := "gregorian";
     range_data := [500; 1500];
     azimuth_data := [10; 10];
     elevation_data := [1; 5];
     longitude_data := 8;
     latitude_data := 46;
     altitude_data := 0;
     fields := {[ "reflectivity" := [[11; 12]; [21; 22]] ]} |}.

(** Three rays at azimuths 10, 20 and 30. *)
Definition volume3 : Volume :=
  {| time_data := [0; 30; 60];
     time_units := "seconds since 2016-01-01T00:00:00Z";
     time_calendar := "gregorian";
     range_data := [500; 1500];
     azimuth_data := [10; 20; 30];
     elevation_data := [1; 1; 1];
     longitude_data := 8;
     latitude_data := 46;
     altitude_data := 0;
     fields := {[ "reflectivity" := [[11; 12]; [21; 22]; [31; 32]] ]} |}.

(** Two rays, each on the requested direction along one axis only:
    (azimuth 10, elevation 0) and (azimuth 0, elevation 10). *)
Definition volume_split : Volume :=
  {| time_data := [0; 30];
     time_units := "seconds since 2016-01-01T00:00:00Z";
     time_calendar := "gregorian";
     range_data := [500; 1500];
     azimuth_data := [10; 0];
     elevation_data := [0; 10];
     longitude_data := 8;
     latitude_data := 46;
     altitude_data := 0;
     fields := {[ "reflectivity" := [[11; 12]; [21; 22]] ]} |}.

(** The double a decimal literal denotes. *)
Definition double (q : Q) : Q := Np.round64 q.

(** Two rays whose combined distances from (0, 0) differ as real numbers
    and agree as doubles: (0.0, 0.4) and (0.1, 0.3). *)
Definition volume_tie : Volume :=
  {| time_data := [0; 30];
     time_units := "seconds since 2016-01-01T00:00:00Z";
     time_calendar := "gregorian";
     range_data := [500; 1500];
     azimuth_data := [0; double (1 # 10)];
     elevation_data := [double (4 # 10); double (3 # 10)];
     longitude_data := 8;
     latitude_data := 46;
     altitude_data := 0;
     fields := {[ "reflectivity" := [[11; 12]; [21; 22]] ]} |}.

(** One ray at azimuth 1.1. *)
Definition volume_edge : Volume :=
  {| time_data := [0];
     time_units := "seconds since 2016-01-01T00:00:00Z";
     time_calendar := "gregorian";
     range_data := [500; 1500];
     azimuth_data := [double (11 # 10)];
     elevation_data := [0];
     longitude_data := 8;
     latitude_data := 46;
     altitude_data := 0;
     fields := {[ "reflectivity" := [[11; 12]] ]} |}.

(** A query in geographic mode with true altitude; under [extern] it asks
    for range [r], azimuth [az] and elevation [el]. *)
Definition query (az el r azitol eletol rngtol : Q) : DsCfg :=
  {| cfg_datatype := ["dBZ"];
     cfg_latlon := true;
     cfg_truealt := true;
     cfg_lon := r;
     cfg_lat := az;
     cfg_alt := el;
     cfg_ele := 0;
     cfg_azi := 0;
     cfg_rng := 0;
     cfg_AziTol := azitol;
     cfg_EleTol := eletol;
     cfg_RngTol := rngtol |}.

(** The same point asked for in antenna coordinates. *)
Definition antenna_query (az el r azitol eletol rngtol : Q) : DsCfg :=
  {| cfg_datatype := ["dBZ"];
     cfg_latlon := false;
     cfg_truealt := false;
     cfg_lon := 0;
     cfg_lat := 0;
     cfg_alt := 0;
     cfg_ele := el;
     cfg_azi := az;
     cfg_rng := r;
     cfg_AziTol := azitol;
     cfg_EleTol := eletol;
     cfg_RngTol := rngtol |}.

(** The radar object of [volume] and a store that holds its arrays. *)
Definition store : gmap Heap.loc Heap.ndarray :=
  {[ 1%positive := Heap.Arr1 [0; 30];
     2%positive := Heap.Arr1 [500; 1500];
     3%positive := Heap.Arr1 [10; 10];
     4%positive := Heap.Arr1 [1; 5];
     5%positive := Heap.Arr1 [8];
     6%positive := Heap.Arr1 [46];
     7%positive := Heap.Arr1 [0];
     8%positive := Heap.Arr2 [[11; 12]; [21; 22]] ]}.

Definition radar : Heap.Radar :=
  {| Heap.r_time := 1%positive;
     Heap.r_time_units := "seconds since 2016-01-01T00:00:00Z";
     Heap.r_time_calendar := "gregorian";
     Heap.r_range := 2%positive;
     Heap.r_azimuth := 3%positive;
     Heap.r_elevation := 4%positive;
     Heap.r_longitude := 5%positive;
     Heap.r_latitude := 6%positive;
     Heap.r_altitude := 7%positive;
     Heap.r_fields := [("reflectivity", 8%positive)] |}.

End Double.

(** ** Trajectory products

    [pyrad/prod/process_traj_products.py].  [generate_traj_product] builds
    file names and hands the trajectory to the time series and plotting
    code of other modules.  The embedding records every call into another
    module, in order, with its arguments; such a call is taken to return.
    [get_save_dir] and [make_filename] (of [pyrad.io.io_aux]) return values
    the function goes on with, so their results are parameters. *)

Module Traj.

(** A value of the product configuration dictionary. *)
Inductive pyval : Type :=
| PStr (s : string)
| PList (l : list string)
| PNone.

#[global] Instance pyval_eq_dec : EqDecision pyval.
Proof. solve_decision. Defined.

(** What a call may raise; [Exception fmt args] stands for
    [Exception(fmt % args)]. *)
Inductive raised : Type :=
| KeyError (key : string)
| IndexError
| Exception (fmt : string) (args : list pyval).

Inductive result (A : Type) : Type :=
| Ok (a : A)
| Err (e : raised).

Arguments Ok {A} a.
Arguments Err {A} e.

Section Model.

(** The type of the entries of [traj.time_vector]. *)
Variable timestamp : Type.

(** [traj.radar_list[i]]. *)
Record RadarTraj : Type := mkRadarTraj {
  elevation_vec : list Q;
  azimuth_vec : list Q;
  range_vec : list Q;
  v_abs : list Q;
  v_r : list Q;
  v_el : list Q;
  v_az : list Q
}.

Record Trajectory : Type := mkTrajectory {
  time_vector : list timestamp;
  radar_list : list RadarTraj;
  wgs84_lat_deg : list Q;
  wgs84_lon_deg : list Q;
  wgs84_alt_m : list Q
}.

(** ["Trajectory Starting at  %s" % t.strftime(datefmt)]. *)
Inductive title : Type :=
| Title (fmt : string) (t : timestamp) (datefmt : string).

(** The calls into other modules. *)
Inductive call : Type :=
| get_save_dir_call (basepath procname dssavedir prdname : pyval)
    (timeinfo : timestamp)
| make_filename_call (prdtype : string) (dstype : pyval) (dsname : string)
    (ext_list : pyval) (prdcfginfo : pyval) (timeinfo : timestamp)
    (timeformat : string) (runinfo : pyval)
| TimeSeries_call (description : pyval) (timevec : list timestamp)
    (timeformat : string)
| add_dataseries_call (label unit_name unit : string) (data : list Q)
| plot_call (fname : string)
| write_call (fname : string)
| plot_pos_call (lat lon alt : list Q) (fname_list : list string)
    (cb_label : string) (titl : title) (save_fig : bool).

(** The results of the two calls whose value is used. *)
Record Extern : Type := mkExtern {
  get_save_dir : pyval -> pyval -> pyval -> pyval -> timestamp -> string;
  make_filename :
    string -> pyval -> string -> pyval -> pyval -> timestamp -> string ->
    pyval -> list string
}.

(** A computation: its result and the calls it made, oldest first. *)
Definition T (A : Type) : Type := (result A * list call)%type.

Definition ret {A : Type} (a : A) : T A := (Ok a, []).
Definition raise {A : Type} (e : raised) : T A := (Err e, []).
Definition called (c : call) : T unit := (Ok tt, [c]).

Definition bind {A B : Type} (m : T A) (k : A -> T B) : T B :=
  match m with
  | (Ok a, cs) => let '(r, cs') := k a in (r, (cs ++ cs')%list)
  | (Err e, cs) => (Err e, cs)
  end.

(** [d[key]]. *)
Definition getkey (d : gmap string pyval) (key : string) : T pyval :=
  match d !! key with
  | Some v => ret v
  | None => raise (KeyError key)
  end.

(** [l[0]]. *)
Definition first {A : Type} (l : list A) : T A :=
  match l with
  | x :: _ => ret x
  | [] => raise IndexError
  end.

(** Lines 144-146: [for i, fname in enumerate(fname_list):
    fname_list[i] = savedir + fname], run from index [i] for at most
    [fuel] rounds; the list is updated in place. *)
Fixpoint prefix_names (savedir : string) (fuel i : nat)
    (fname_list : list string) : list string :=
  match fuel with
  | O => fname_list
  | S fuel' =>
      match fname_list !! i with
      | Some fname =>
          prefix_names savedir fuel' (S i)
            (<[i := (savedir ++ fname)%string]> fname_list)
      | None => fname_list
      end
  end.

End Model.

Arguments time_vector {timestamp}.
Arguments radar_list {timestamp}.
Arguments wgs84_lat_deg {timestamp}.
Arguments wgs84_lon_deg {timestamp}.
Arguments wgs84_alt_m {timestamp}.
Arguments Title {timestamp}.
Arguments get_save_dir_call {timestamp}.
Arguments make_filename_call {timestamp}.
Arguments TimeSeries_call {timestamp}.
Arguments add_dataseries_call {timestamp}.
Arguments plot_call {timestamp}.
Arguments write_call {timestamp}.
Arguments plot_pos_call {timestamp}.
Arguments get_save_dir {timestamp}.
Arguments make_filename {timestamp}.
Arguments ret {timestamp A}.
Arguments raise {timestamp A}.
Arguments called {timestamp}.
Arguments bind {timestamp A B}.
Arguments getkey {timestamp}.
Arguments first {timestamp A}.

Declare Scope traj_scope.
Delimit Scope traj_scope with traj.
Notation "'let*' x ':=' m 'in' k" := (bind m (fun x => k))
  (at level 10, x name, m at level 100, k at level 200) : traj_scope.
Notation "m ';;' k" := (bind m (fun _ => k))
  (at level 100, k at level 200, right associativity) : traj_scope.

Section Product.
Local Open Scope traj_scope.

Context {timestamp : Type}.
Variable E : Extern timestamp.

(** The call of lines 44-46, repeated on lines 92-94 and 130-132:
    [get_save_dir(prdcfg['basepath'], prdcfg['procname'], dssavedir,
    prdcfg['prdname'], timeinfo=timeinfo)]. *)
Definition save_dir (prdcfg : gmap string pyval) (dssavedir : pyval)
    (timeinfo : timestamp) : T timestamp string :=
  let* basepath := getkey prdcfg "basepath" in
  let* procname := getkey prdcfg "procname" in
  let* prdname := getkey prdcfg "prdname" in
  called (get_save_dir_call basepath procname dssavedir prdname timeinfo) ;;
  ret (get_save_dir E basepath procname dssavedir prdname timeinfo).

(** The call of lines 52-56, repeated with another [prdcfginfo] on lines
    63-67, 73-77 and 135-139: [make_filename('ts', prdcfg['dstype'],
    'TRAJ', prdcfg['imgformat'], prdcfginfo=info, timeinfo=timeinfo,
    timeformat='%Y%m%d%H%M%S', runinfo=prdcfg['runinfo'])]. *)
Definition image_names (prdcfg : gmap string pyval) (info : string)
    (timeinfo : timestamp) : T timestamp (list string) :=
  let* dstype := getkey prdcfg "dstype" in
  let* imgformat := getkey prdcfg "imgformat" in
  let* runinfo := getkey prdcfg "runinfo" in
  called (make_filename_call "ts" dstype "TRAJ" imgformat (PStr info)
            timeinfo "%Y%m%d%H%M%S" runinfo) ;;
  ret (make_filename E "ts" dstype "TRAJ" imgformat (PStr info)
         timeinfo "%Y%m%d%H%M%S" runinfo).

(** [ts.add_dataseries(label, unit_name, unit,
    traj.radar_list[0].<vec>)]. *)
Definition add_dataseries (traj : Trajectory timestamp)
    (label unit_name units : string) (vec : RadarTraj -> list Q)
  : T timestamp unit :=
  let* radar := first (radar_list traj) in
  called (add_dataseries_call label unit_name units (vec radar)).

(** [generate_traj_product], lines 19-162. *)
Definition generate_traj_product
    (traj : Trajectory timestamp) (prdcfg : gmap string pyval)
  : T timestamp unit :=
  let* dssavedir := getkey prdcfg "dsname" in
  let* dssavedir :=
    if bool_decide ("dssavename" ∈ dom prdcfg)
    then getkey prdcfg "dssavename"
    else ret dssavedir in
  let* type := getkey prdcfg "type" in
  if bool_decide (type = PStr "TRAJ_PLOT") then
    let* timeinfo := first (time_vector traj) in
    let* savedir := save_dir prdcfg dssavedir timeinfo in
    called (TimeSeries_call (PStr "") (time_vector traj)
              "%Y-%m-%d %H:%M:%S.%f") ;;
    let* datatype := getkey prdcfg "datatype" in
    if bool_decide (datatype = PStr "EL") then
      let* fname := image_names prdcfg "EL" timeinfo in
      add_dataseries traj "Elevation" "Elevation" "deg" elevation_vec ;;
      let* fname0 := first fname in
      called (plot_call (savedir ++ fname0)) ;;
      ret tt
    else
    let* datatype := getkey prdcfg "datatype" in
    if bool_decide (datatype = PStr "AZ") then
      let* fname := image_names prdcfg "AZ" timeinfo in
      add_dataseries traj "Azimuth" "Azimuth" "deg" azimuth_vec ;;
      let* fname0 := first fname in
      called (plot_call (savedir ++ fname0)) ;;
      ret tt
    else
    let* datatype := getkey prdcfg "datatype" in
    if bool_decide (datatype = PStr "RANGE") then
      let* fname := image_names prdcfg "RANGE" timeinfo in
      add_dataseries traj "Range" "Range" "m" range_vec ;;
      let* fname0 := first fname in
      called (plot_call (savedir ++ fname0)) ;;
      ret tt
    else
      let* datatype := getkey prdcfg "datatype" in
      let* dsname := getkey prdcfg "dsname" in
      raise (Exception "ERROR: Unknown datatype '%s' (dataset: '%s')"
               [datatype; dsname])
  else
  let* type := getkey prdcfg "type" in
  if bool_decide (type = PStr "TRAJ_TEXT") then
    let* timeinfo := first (time_vector traj) in
    let* savedir := save_dir prdcfg dssavedir timeinfo in
    let* dstype := getkey prdcfg "dstype" in
    let* runinfo := getkey prdcfg "runinfo" in
    called (make_filename_call "ts" dstype "TRAJ" (PList ["csv"]) PNone
              timeinfo "%Y%m%d%H%M%S" runinfo) ;;
    let fname :=
      make_filename E "ts" dstype "TRAJ" (PList ["csv"]) PNone
        timeinfo "%Y%m%d%H%M%S" runinfo in
    let description :=
      PList ["Description:";
             "Time series of a plane trajectory in radar coordinates."] in
    called (TimeSeries_call description (time_vector traj)
              "%Y-%m-%d %H:%M:%S.%f") ;;
    add_dataseries traj "Elevation" "Elevation" "deg" elevation_vec ;;
    add_dataseries traj "Azimuth" "Azimuth" "deg" azimuth_vec ;;
    add_dataseries traj "Range" "Range" "m" range_vec ;;
    add_dataseries traj "Absolute Speed" "Absolute Speed" "m/s" v_abs ;;
    add_dataseries traj "Radial Speed" "Radial Speed" "m/s" v_r ;;
    add_dataseries traj "Elevation Speed" "Elevation Speed" "deg/s" v_el ;;
    add_dataseries traj "Azimuth Speed" "Azimuth Speed" "deg/s" v_az ;;
    let* fname0 := first fname in
    called (write_call (savedir ++ fname0)) ;;
    ret tt
  else
  let* type := getkey prdcfg "type" in
  if bool_decide (type = PStr "TRAJ_MAP") then
    let* timeinfo := first (time_vector traj) in
    let* savedir := save_dir prdcfg dssavedir timeinfo in
    let* fname := image_names prdcfg "MAP" timeinfo in
    let* start := first (time_vector traj) in
    let title := Title "Trajectory Starting at  %s" start "%Y-%m-%d" in
    let fname_list := prefix_names savedir (length fname) 0 fname in
    let lat := wgs84_lat_deg traj in
    let lon := wgs84_lon_deg traj in
    let alt := wgs84_alt_m traj in
    called (plot_pos_call lat lon alt fname_list "Altitude [m]" title true) ;;
    ret tt
  else
    let* type := getkey prdcfg "type" in
    let* dsname := getkey prdcfg "dsname" in
    raise (Exception
             "ERROR: Unsupported product type: '%s' of dataset '%s'"
             [type; dsname]).

(** The calls that produce a file. *)
Definition writes_file (c : call timestamp) : bool :=
  match c with
  | plot_call _ | write_call _ | plot_pos_call _ _ _ _ _ _ _ => true
  | _ => false
  end.

(** The last call of the trace produces a file and no earlier one does. *)
Definition one_file_last (cs : list (call timestamp)) : bool :=
  match rev cs with
  | c :: before => writes_file c && forallb (fun c => negb (writes_file c)) before
  | [] => false
  end.

(** No call of the trace produces a file. *)
Definition no_file (cs : list (call timestamp)) : Prop :=
  Forall (fun c => writes_file c = false) cs.

(** A run that returns has produced one file, with its last call; a run
    that raises has produced none. *)
Definition files_ok {A : Type} (run : T timestamp A) : Prop :=
  match fst run with
  | Ok _ =>
      exists before c,
        snd run = (before ++ [c])%list /\ writes_file c = true /\
        no_file before
  | Err _ => no_file (snd run)
  end.

(** The directory name of a product: [dssavename] when the configuration
    has it, else [dsname]. *)
Definition save_name (prdcfg : gmap string pyval) : option pyval :=
  match prdcfg !! "dssavename" with
  | Some v => Some v
  | None => prdcfg !! "dsname"
  end.

End Product.

(** A trajectory and a configuration to run the function on; time stamps
    are numbers, directories and file names are built by concatenation. *)
Module Double.
Local Open Scope Q_scope.

Definition extern : Extern nat :=
  {| get_save_dir := fun basepath procname dssavedir prdname _ =>
       match basepath, dssavedir with
       | PStr b, PStr d => (b ++ d ++ "/")%string
       | _, _ => "./"
       end;
     make_filename := fun prdtype dstype dsname ext_list prdcfginfo _ _ _ =>
       match ext_list with
       | PList exts =>
           List.map (fun ext => (prdtype ++ "_" ++ dsname ++ "." ++ ext)%string)
             exts
       | _ => []
       end |}.

Definition radar : RadarTraj :=
  {| elevation_vec := [1; 2]; azimuth_vec := [10; 20];
     range_vec := [500; 600]; v_abs := [50; 51]; v_r := [5; 6];
     v_el := [0; 1]; v_az := [2; 3] |}.

Definition traj : Trajectory nat :=
  {| time_vector := [100%nat; 101%nat];
     radar_list := [radar];
     wgs84_lat_deg := [46; 47];
     wgs84_lon_deg := [8; 9];
     wgs84_alt_m := [1000; 1100] |}.

Definition prdcfg (type datatype : string) : gmap string pyval :=
  {[ "dsname" := PStr "traj";
     "type" := PStr type;
     "datatype" := PStr datatype;
     "basepath" := PStr "/data/";
     "procname" := PStr "proc";
     "prdname" := PStr "prd";
     "dstype" := PStr "TRAJ_ONLY";
     "imgformat" := PList ["png"; "pdf"];
     "runinfo" := PNone ]}.

End Double.

End Traj.

(** * Properties *)

(** ** The registry *)

Section RegistryFacts.
Import Registry.

Lemma eqb_false_of_ne (s t : string) : s <> t -> String.eqb s t = false.
Proof. intros H. destruct (String.eqb_spec s t); [contradiction | reflexivity]. Qed.

(** C3: on every recognized dataset type [get_process_type] returns one
    pair (function name, format); the format is ['VOL'] except for
    ['SUN_HITS'], which gets ['SUN_HITS'], and ['POINT_MEASUREMENT'], which
    gets ['TIMESERIES']; ['RAW'] gives [('process_raw', 'VOL')]. *)
Theorem get_process_type_recognized (dataset_type : string) :
  dataset_type ∈ recognized ->
  exists func_name dsformat,
    get_process_type dataset_type = Return (func_name, dsformat) /\
    (dataset_type = "SUN_HITS" -> dsformat = "SUN_HITS") /\
    (dataset_type = "POINT_MEASUREMENT" -> dsformat = "TIMESERIES") /\
    (dataset_type <> "SUN_HITS" -> dataset_type <> "POINT_MEASUREMENT" ->
     dsformat = "VOL") /\
    (dataset_type = "RAW" -> func_name = "process_raw" /\ dsformat = "VOL").
Proof.
  intros Hin. apply list_elem_of_In in Hin. unfold recognized in Hin.
  repeat (destruct Hin as [<- | Hin];
          [ eexists _, _; split; [reflexivity |];
            repeat split; intros; congruence | ]).
  destruct Hin.
Qed.

Lemma get_process_type_recognized_witness :
  exists func_name dsformat,
    get_process_type "RAW" = Return (func_name, dsformat) /\
    ("RAW" = "SUN_HITS" -> dsformat = "SUN_HITS") /\
    ("RAW" = "POINT_MEASUREMENT" -> dsformat = "TIMESERIES") /\
    ("RAW" <> "SUN_HITS" -> "RAW" <> "POINT_MEASUREMENT" ->
     dsformat = "VOL") /\
    ("RAW" = "RAW" -> func_name = "process_raw" /\ dsformat = "VOL").
Proof.
  apply (get_process_type_recognized "RAW").
  apply list_elem_of_In. simpl. left. reflexivity.
Defined.

(** C4: on a dataset type outside the recognized set [get_process_type]
    raises [ValueError], and the message ends with the offending name. *)
Theorem get_process_type_unknown (dataset_type : string) :
  dataset_type ∉ recognized ->
  get_process_type dataset_type
  = Raise (ValueError ("ERROR: Unknown dataset type " ++ dataset_type)).
Proof.
  intros Hnot. unfold get_process_type.
  repeat match goal with
  | |- context [String.eqb dataset_type ?s] =>
      rewrite (eqb_false_of_ne dataset_type s);
      [ | intros ->; apply Hnot; apply list_elem_of_In; simpl; tauto ]
  end.
  reflexivity.
Qed.

Lemma get_process_type_unknown_witness :
  get_process_type "NOT_A_REAL_OP"
  = Raise (ValueError "ERROR: Unknown dataset type NOT_A_REAL_OP").
Proof.
  apply (get_process_type_unknown "NOT_A_REAL_OP").
  intros Hin. apply list_elem_of_In in Hin. simpl in Hin.
  repeat (destruct Hin as [Hin | Hin]; [discriminate Hin |]).
  exact Hin.
Defined.

End RegistryFacts.

(** ** numpy reductions *)

Section NpFacts.
Local Open Scope list_scope.
Local Open Scope Q_scope.

Lemma round_pos_positive (n d : positive) : 0 < Np.round_pos n d.
Proof.
  unfold Np.round_pos. destruct (Np.scaled n d _) as [a0 b0].
  destruct (Np.scaled n d _) as [a b].
  rewrite Qred_correct. apply Qmult_lt_0_compat; [reflexivity |].
  now apply Qpower_0_lt.
Qed.

(** Rounding depends on the number, not on the fraction that stands for
    it. *)
Lemma round64_comp (p q : Q) : p == q -> Np.round64 p = Np.round64 q.
Proof. intros H. unfold Np.round64. now rewrite (Qred_complete p q H). Qed.

Lemma round64_zero (q : Q) : q == 0 -> Np.round64 q = 0.
Proof. intros H. now rewrite (round64_comp q 0 H). Qed.

Lemma round64_positive (q : Q) : 0 < q -> 0 < Np.round64 q.
Proof.
  intros H. rewrite <- (Qred_correct q) in H. unfold Np.round64.
  destruct (Qred q) as [num den]. simpl.
  destruct num as [| n | n]; [discriminate H | | discriminate H].
  apply round_pos_positive.
Qed.

Lemma round64_negative (q : Q) : q < 0 -> Np.round64 q < 0.
Proof.
  intros H. rewrite <- (Qred_correct q) in H. unfold Np.round64.
  destruct (Qred q) as [num den]. simpl.
  destruct num as [| n | n]; [discriminate H | discriminate H |].
  pose proof (round_pos_positive n den). lra.
Qed.

(** Only zero rounds to zero: the exponent is not bounded below. *)
Lemma round64_zero_iff (q : Q) : Np.round64 q == 0 <-> q == 0.
Proof.
  split.
  - intros H. destruct (Q_dec q 0) as [[Hlt | Hgt] | Heq]; [| | exact Heq].
    + pose proof (round64_negative q Hlt). lra.
    + pose proof (round64_positive q Hgt). lra.
  - intros H. now rewrite (round64_zero q H).
Qed.

(** The rounding at work: 0.1 is the double 3602879701896397 / 2^55;
    2^53 + 1 and 2^53 + 3 lie half way between two doubles and go to the
    even one; 0.1 + 0.2 is the double above 0.3; integers of moderate
    size are doubles. *)
Example round64_values :
  Np.round64 (1 # 10) = 3602879701896397 # 36028797018963968 /\
  Np.round64 9007199254740993 = 9007199254740992 /\
  Np.round64 9007199254740995 = 9007199254740996 /\
  Np.round64 (Np.round64 (1 # 10) + Np.round64 (2 # 10))
  = 1351079888211149 # 4503599627370496 /\
  Np.round64 (3 # 10) = 5404319552844595 # 18014398509481984 /\
  Np.round64 (-5) = -5.
Proof. repeat split; vm_compute; reflexivity. Qed.

Lemma distance_nonneg (a x : Q) : 0 <= distance a x.
Proof. apply Qabs_nonneg. Qed.

(** A computed distance is zero exactly when the two numbers are equal. *)
Lemma distance_zero_iff (a x : Q) : distance a x <= 0 <-> a == x.
Proof.
  unfold distance. split.
  - intros H. apply Qabs_Qle_condition in H.
    assert (Hz : Np.round64 (a - x) == 0) by lra.
    apply (proj1 (round64_zero_iff (a - x))) in Hz. lra.
  - intros H. rewrite (round64_zero (a - x)) by lra. discriminate.
Qed.

Lemma Qgtb_true (a b : Q) : Np.Qgtb a b = true <-> b < a.
Proof.
  unfold Np.Qgtb. rewrite negb_true_iff, <- not_true_iff_false, Qle_bool_iff.
  split; [apply Qnot_le_lt | apply Qlt_not_le].
Qed.

Lemma Qgtb_false (a b : Q) : Np.Qgtb a b = false <-> a <= b.
Proof.
  unfold Np.Qgtb. rewrite negb_false_iff. apply Qle_bool_iff.
Qed.

Lemma abs_sub_scalar (axis : list Q) (x : Q) :
  Np.abs (Np.sub_scalar axis x) = distances axis x.
Proof.
  unfold Np.abs, Np.sub_scalar, distances, distance.
  induction axis as [| a axis IH]; simpl; [reflexivity | now rewrite IH].
Qed.

Lemma distances_length (axis : list Q) (x : Q) :
  length (distances axis x) = length axis.
Proof. unfold distances. apply length_fmap. Qed.

Lemma distances_lookup (axis : list Q) (x : Q) (i : nat) :
  distances axis x !! i = (fun a => distance a x) <$> axis !! i.
Proof. unfold distances. apply list_lookup_fmap. Qed.

Lemma zip_add_distances (az_axis el_axis : list Q) (az el : Q) :
  Np.zip_add (distances az_axis az) (distances el_axis el)
  = zip_with (fun a e => Np.round64 (distance a az + distance e el))
      az_axis el_axis.
Proof.
  unfold distances. revert el_axis.
  induction az_axis as [| a az_axis IH]; intros [| e el_axis]; simpl;
    try reflexivity.
  now rewrite <- IH.
Qed.

Lemma min_from_spec (l : list Q) : forall best,
  (Np.min_from best l = best \/ Np.min_from best l ∈ l) /\
  Np.min_from best l <= best /\
  (forall x, x ∈ l -> Np.min_from best l <= x).
Proof.
  induction l as [| y l IH]; intros best; simpl.
  - split; [now left |]. split; [apply Qle_refl |].
    intros x Hx. inversion Hx.
  - destruct (Qle_bool best y) eqn:Hby.
    + apply Qle_bool_iff in Hby.
      destruct (IH best) as (Hmem & Hle & Hall).
      split; [destruct Hmem; [now left | right; now constructor] |].
      split; [exact Hle |].
      intros x Hx. apply elem_of_cons in Hx as [-> | Hx].
      * now apply Qle_trans with best.
      * now apply Hall.
    + assert (Hyb : y < best).
      { apply Qnot_le_lt. intros H. apply Qle_bool_iff in H. congruence. }
      destruct (IH y) as (Hmem & Hle & Hall).
      split.
      { right. destruct Hmem as [-> | Hmem]; [constructor | now constructor]. }
      split; [apply Qle_trans with y; [exact Hle | now apply Qlt_le_weak] |].
      intros x Hx. apply elem_of_cons in Hx as [-> | Hx].
      * exact Hle.
      * now apply Hall.
Qed.

(** [np.min] of a non-empty array returns its minimum. *)
Lemma min_spec (l : list Q) :
  l <> [] -> exists d, Np.min l = Return d /\ is_minimum l d.
Proof.
  destruct l as [| x l]; [congruence | intros _].
  exists (Np.min_from x l). split; [reflexivity |].
  destruct (min_from_spec l x) as (Hmem & Hle & Hall). split.
  - destruct Hmem as [-> | Hmem]; [constructor | now constructor].
  - intros d' Hd'. apply elem_of_cons in Hd' as [-> | Hd'];
      [exact Hle | now apply Hall].
Qed.

Lemma argmin_from_spec (l : list Q) : forall pre best_i best,
  is_first_argmin pre best_i -> pre !! best_i = Some best ->
  is_first_argmin (pre ++ l)
    (Np.argmin_from best_i best (length pre) l).
Proof.
  induction l as [| x l IH]; intros pre best_i best Hfirst Hbest; simpl.
  - now rewrite app_nil_r.
  - assert (Happ : pre ++ x :: l = (pre ++ [x]) ++ l)
      by now rewrite <- app_assoc.
    assert (Hlen : S (length pre) = length (pre ++ [x]))
      by (rewrite length_app; simpl; lia).
    destruct Hfirst as (d & Hd & Hall & Hbefore).
    assert (d = best) as -> by congruence.
    destruct (Qle_bool best x) eqn:Hbx.
    + apply Qle_bool_iff in Hbx.
      rewrite Happ, Hlen. apply IH.
      * exists best. split; [| split].
        -- apply lookup_app_l_Some. exact Hbest.
        -- intros j d' Hj. apply lookup_app_Some in Hj as [Hj | [_ Hj]].
           ++ now apply (Hall j).
           ++ apply list_lookup_singleton_Some in Hj as [_ <-]. exact Hbx.
        -- intros j d' Hlt Hj. apply lookup_app_Some in Hj as [Hj | [Hge Hj]].
           ++ now apply (Hbefore j).
           ++ apply lookup_lt_Some in Hbest. lia.
      * apply lookup_app_l_Some. exact Hbest.
    + assert (Hxb : x < best).
      { apply Qnot_le_lt. intros H. apply Qle_bool_iff in H. congruence. }
      rewrite Happ, Hlen. apply IH.
      * exists x. split; [| split].
        -- rewrite lookup_app_r by lia. now rewrite Nat.sub_diag.
        -- intros j d' Hj. apply lookup_app_Some in Hj as [Hj | [_ Hj]].
           ++ apply Qle_trans with best;
                [now apply Qlt_le_weak | now apply (Hall j)].
           ++ apply list_lookup_singleton_Some in Hj as [_ <-].
              apply Qle_refl.
        -- intros j d' Hlt Hj. apply lookup_app_Some in Hj as [Hj | [Hge Hj]].
           ++ apply Qlt_le_trans with best; [exact Hxb | now apply (Hall j)].
           ++ lia.
      * rewrite lookup_app_r by lia. now rewrite Nat.sub_diag.
Qed.

(** [np.argmin] of a non-empty array returns the first index of its
    minimum. *)
Lemma argmin_spec (l : list Q) :
  l <> [] -> exists i, Np.argmin l = Return i /\ is_first_argmin l i.
Proof.
  destruct l as [| x l]; [congruence | intros _].
  exists (Np.argmin_from 0 x 1 l). split; [reflexivity |].
  apply (argmin_from_spec l [x] 0%nat x); [| reflexivity].
  exists x. split; [reflexivity |]. split.
  - intros j d' Hj. apply list_lookup_singleton_Some in Hj as [_ <-].
    apply Qle_refl.
  - intros j d' Hlt. lia.
Qed.

Lemma is_first_argmin_lt (l : list Q) (i : nat) :
  is_first_argmin l i -> (i < length l)%nat.
Proof. intros (d & Hd & _). now apply lookup_lt_Some in Hd. Qed.

End NpFacts.

(** ** Running the routine step by step *)

Section Steps.
Local Open Scope list_scope.
Local Open Scope Q_scope.

Lemma bind_lift_Return {A B : Type} (a : A) (k : A -> M B) :
  bind (lift (Return a)) k = k a.
Proof. unfold bind, lift. now destruct (k a). Qed.

Lemma bind_ret {A B : Type} (a : A) (k : A -> M B) : bind (ret a) k = k a.
Proof. apply bind_lift_Return. Qed.

Lemma getitem_Some {A : Type} (l : list A) (i : nat) (a : A) :
  l !! i = Some a -> Np.getitem l i = Return a.
Proof. unfold Np.getitem. now intros ->. Qed.

Lemma getkey_Some {A : Type} (d : gmap string A) (k : string) (a : A) :
  d !! k = Some a -> getkey d k = Return a.
Proof. unfold getkey. now intros ->. Qed.

Lemma distances_nonempty (axis : list Q) (x : Q) :
  axis <> [] -> distances axis x <> [].
Proof. destruct axis; [congruence | discriminate]. Qed.

Lemma within_tolerance_nonempty (axis : list Q) (x tol : Q) :
  within_tolerance axis x tol -> axis <> [].
Proof. intros (d & Hd & _) ->. inversion Hd. Qed.

(** A check that passes: the minimum exists and is not above the
    tolerance. *)
Lemma gate_pass (axis : list Q) (x tol : Q) :
  within_tolerance axis x tol ->
  exists d, Np.min (Np.abs (Np.sub_scalar axis x)) = Return d /\
            is_minimum (distances axis x) d /\ Np.Qgtb d tol = false.
Proof.
  intros Hin. pose proof (within_tolerance_nonempty _ _ _ Hin) as Hne.
  destruct Hin as (d0 & Hd0 & Hle).
  destruct (min_spec (distances axis x)) as (d & Hmin & Hd);
    [now apply distances_nonempty |].
  exists d. rewrite abs_sub_scalar. split; [exact Hmin |].
  split; [exact Hd |]. apply Qgtb_false.
  apply Qle_trans with d0; [now apply Hd | exact Hle].
Qed.

(** A check that fails: the minimum exists and is above the tolerance. *)
Lemma gate_fail (axis : list Q) (x tol : Q) :
  beyond_tolerance axis x tol ->
  exists d, Np.min (Np.abs (Np.sub_scalar axis x)) = Return d /\
            is_minimum (distances axis x) d /\ Np.Qgtb d tol = true.
Proof.
  intros [Hne Hall].
  destruct (min_spec (distances axis x)) as (d & Hmin & Hd);
    [now apply distances_nonempty |].
  exists d. rewrite abs_sub_scalar. split; [exact Hmin |].
  split; [exact Hd |]. apply Qgtb_true. apply Hall. apply Hd.
Qed.

Variable E : Extern.

(** The routine in the PROCESS phase, once the helpers have named the
    field. *)
Lemma process_point_measurement_process
    (dscfg : DsCfg) (radar : Volume) (datatype field_name : string) :
  selects E dscfg datatype field_name ->
  process_point_measurement E 1 dscfg (Some radar)
  = if negb (bool_decide (field_name ∈ dom (fields radar))) then
      (Return None, [field_message])
    else
      bind (if cfg_latlon dscfg then
              ret (geographic_point E dscfg radar (projparams_of radar))
            else antenna_point dscfg radar (projparams_of radar))
           (locate_bin dscfg radar field_name datatype).
Proof.
  intros (dt0 & datagroup & dataset & product & Hdt0 & Hfields & Hname).
  unfold process_point_measurement. simpl negb. cbv iota.
  rewrite (getitem_Some _ _ _ Hdt0), bind_lift_Return.
  rewrite Hfields, bind_lift_Return.
  rewrite Hname, bind_lift_Return.
  unfold attr_of. rewrite bind_ret.
  destruct (negb (bool_decide (field_name ∈ dom (fields radar))));
    reflexivity.
Qed.

(** In geographic mode with the field present the routine is the bin
    search at the point [geographic_point] computes. *)
Lemma process_point_measurement_geographic
    (dscfg : DsCfg) (radar : Volume) (datatype field_name : string) :
  selects E dscfg datatype field_name ->
  is_Some (fields radar !! field_name) ->
  cfg_latlon dscfg = true ->
  process_point_measurement E 1 dscfg (Some radar)
  = locate_bin dscfg radar field_name datatype
      (geographic_point E dscfg radar (projparams_of radar)).
Proof.
  intros Hsel Hfield Hgeo.
  rewrite (process_point_measurement_process _ _ _ _ Hsel).
  rewrite bool_decide_eq_true_2 by now apply elem_of_dom.
  simpl negb. cbv iota. rewrite Hgeo. apply bind_ret.
Qed.

Lemma geographic_point_requested
    (dscfg : DsCfg) (radar : Volume) (az el r : Q) :
  requested E dscfg radar = (az, el, r) ->
  geographic_point E dscfg radar (projparams_of radar)
  = (cfg_lon dscfg, cfg_lat dscfg, cfg_alt dscfg, r, az, el).
Proof.
  unfold requested, geographic_point.
  destruct (geographic_to_cartesian E _ _ _) as [x y].
  destruct (cartesian_to_antenna E _ _ _) as [[r' az'] el'].
  now intros [= -> -> ->].
Qed.

End Steps.

(** ** The bin search *)

Section BinSearch.
Local Open Scope list_scope.
Local Open Scope Q_scope.

Variables (dscfg : DsCfg) (radar : Volume) (field_name dtype : string).
Variables (lon lat alt r az el : Q).

Lemma warn_then_none (msg : message) :
  bind (warn msg) (fun _ => ret (@None PointRecord)) = (Return None, [msg]).
Proof. reflexivity. Qed.

Lemma locate_bin_azimuth_fails :
  beyond_tolerance (azimuth_data radar) az (cfg_AziTol dscfg) ->
  exists d, is_minimum (distances (azimuth_data radar) az) d /\
    locate_bin dscfg radar field_name dtype (lon, lat, alt, r, az, el)
    = (Return None, [tolerance_message "azimuth" az el r d]).
Proof.
  intros Haz. destruct (gate_fail _ _ _ Haz) as (d & Hmin & Hd & Hgt).
  exists d. split; [exact Hd |]. unfold locate_bin.
  rewrite Hmin, bind_lift_Return, Hgt. apply warn_then_none.
Qed.

Lemma locate_bin_elevation_fails :
  within_tolerance (azimuth_data radar) az (cfg_AziTol dscfg) ->
  beyond_tolerance (elevation_data radar) el (cfg_EleTol dscfg) ->
  exists d, is_minimum (distances (elevation_data radar) el) d /\
    locate_bin dscfg radar field_name dtype (lon, lat, alt, r, az, el)
    = (Return None, [tolerance_message "elevation" az el r d]).
Proof.
  intros Haz Hel.
  destruct (gate_pass _ _ _ Haz) as (d_az & Hmin_az & _ & Hle_az).
  destruct (gate_fail _ _ _ Hel) as (d & Hmin & Hd & Hgt).
  exists d. split; [exact Hd |]. unfold locate_bin.
  rewrite Hmin_az, bind_lift_Return, Hle_az.
  rewrite Hmin, bind_lift_Return, Hgt. apply warn_then_none.
Qed.

Lemma locate_bin_range_fails :
  within_tolerance (azimuth_data radar) az (cfg_AziTol dscfg) ->
  within_tolerance (elevation_data radar) el (cfg_EleTol dscfg) ->
  beyond_tolerance (range_data radar) r (cfg_RngTol dscfg) ->
  exists d, is_minimum (distances (range_data radar) r) d /\
    locate_bin dscfg radar field_name dtype (lon, lat, alt, r, az, el)
    = (Return None, [tolerance_message "range bin" az el r d]).
Proof.
  intros Haz Hel Hr.
  destruct (gate_pass _ _ _ Haz) as (d_az & Hmin_az & _ & Hle_az).
  destruct (gate_pass _ _ _ Hel) as (d_el & Hmin_el & _ & Hle_el).
  destruct (gate_fail _ _ _ Hr) as (d & Hmin & Hd & Hgt).
  exists d. split; [exact Hd |]. unfold locate_bin.
  rewrite Hmin_az, bind_lift_Return, Hle_az.
  rewrite Hmin_el, bind_lift_Return, Hle_el.
  rewrite Hmin, bind_lift_Return, Hgt. apply warn_then_none.
Qed.

Lemma combined_distances_length :
  length (elevation_data radar) = length (azimuth_data radar) ->
  length (combined_distances radar az el) = length (azimuth_data radar).
Proof. intros H. unfold combined_distances. rewrite length_zip_with. lia. Qed.

Lemma locate_bin_selects (data : list (list Q)) :
  fields radar !! field_name = Some data ->
  well_shaped radar data ->
  within_tolerance (azimuth_data radar) az (cfg_AziTol dscfg) ->
  within_tolerance (elevation_data radar) el (cfg_EleTol dscfg) ->
  within_tolerance (range_data radar) r (cfg_RngTol dscfg) ->
  exists ind_ray ind_r row val t used_az used_el used_r,
    is_first_argmin (combined_distances radar az el) ind_ray /\
    is_first_argmin (distances (range_data radar) r) ind_r /\
    azimuth_data radar !! ind_ray = Some used_az /\
    elevation_data radar !! ind_ray = Some used_el /\
    range_data radar !! ind_r = Some used_r /\
    time_data radar !! ind_ray = Some t /\
    data !! ind_ray = Some row /\ row !! ind_r = Some val /\
    locate_bin dscfg radar field_name dtype (lon, lat, alt, r, az, el)
    = (Return (Some
         {| value := val;
            datatype := dtype;
            time := Num2date t (time_units radar) (time_calendar radar);
            point_coordinates_WGS84_lon_lat_alt := (lon, lat, alt);
            antenna_coordinates_az_el_r := (az, el, r);
            used_antenna_coordinates_az_el_r := (used_az, used_el, used_r)
         |}), []).
Proof.
  intros Hdata (Hlen_el & Hlen_t & Hlen_d & Hrows) Haz Hel Hr.
  destruct (gate_pass _ _ _ Haz) as (d_az & Hmin_az & _ & Hle_az).
  destruct (gate_pass _ _ _ Hel) as (d_el & Hmin_el & _ & Hle_el).
  destruct (gate_pass _ _ _ Hr) as (d_r & Hmin_r & _ & Hle_r).
  pose proof (within_tolerance_nonempty _ _ _ Haz) as Hne_az.
  pose proof (within_tolerance_nonempty _ _ _ Hr) as Hne_r.
  pose proof (combined_distances_length Hlen_el) as Hlen_c.
  destruct (argmin_spec (combined_distances radar az el))
    as (ind_ray & Harg_ray & Hfirst_ray).
  { intros Hnil. rewrite Hnil in Hlen_c. simpl in Hlen_c.
    destruct (azimuth_data radar); [congruence | discriminate]. }
  destruct (argmin_spec (distances (range_data radar) r))
    as (ind_r & Harg_r & Hfirst_r); [now apply distances_nonempty |].
  pose proof (is_first_argmin_lt _ _ Hfirst_ray) as Hlt_ray.
  pose proof (is_first_argmin_lt _ _ Hfirst_r) as Hlt_r.
  rewrite Hlen_c in Hlt_ray. rewrite distances_length in Hlt_r.
  destruct (lookup_lt_is_Some_2 (azimuth_data radar) ind_ray Hlt_ray)
    as [used_az Hused_az].
  destruct (lookup_lt_is_Some_2 (elevation_data radar) ind_ray)
    as [used_el Hused_el]; [lia |].
  destruct (lookup_lt_is_Some_2 (range_data radar) ind_r Hlt_r)
    as [used_r Hused_r].
  destruct (lookup_lt_is_Some_2 (time_data radar) ind_ray) as [t Ht]; [lia |].
  destruct (lookup_lt_is_Some_2 data ind_ray) as [row Hrow]; [lia |].
  assert (Hrow_len : length row = length (range_data radar)).
  { rewrite Forall_forall in Hrows. apply Hrows.
    eapply list_elem_of_lookup_2. exact Hrow. }
  destruct (lookup_lt_is_Some_2 row ind_r) as [val Hval]; [lia |].
  exists ind_ray, ind_r, row, val, t, used_az, used_el, used_r.
  repeat (split; [assumption |]).
  unfold locate_bin.
  rewrite Hmin_az, bind_lift_Return, Hle_az.
  rewrite Hmin_el, bind_lift_Return, Hle_el.
  rewrite Hmin_r, bind_lift_Return, Hle_r.
  rewrite !abs_sub_scalar. unfold Np.add.
  rewrite !distances_length, Hlen_el, Nat.eqb_refl.
  rewrite bind_lift_Return, zip_add_distances.
  fold (combined_distances radar az el).
  rewrite Harg_ray, bind_lift_Return, Harg_r, bind_lift_Return.
  rewrite (getkey_Some _ _ _ Hdata), bind_lift_Return.
  unfold Np.getitem2. rewrite Hrow.
  rewrite (getitem_Some _ _ _ Hval), bind_lift_Return.
  rewrite (getitem_Some _ _ _ Ht), bind_lift_Return.
  rewrite (getitem_Some _ _ _ Hused_az), bind_lift_Return.
  rewrite (getitem_Some _ _ _ Hused_el), bind_lift_Return.
  rewrite (getitem_Some _ _ _ Hused_r), bind_lift_Return.
  reflexivity.
Qed.

End BinSearch.

(** ** Point measurements *)

Section PointMeasurement.
Local Open Scope list_scope.
Local Open Scope Q_scope.

(** C1: in the PROCESS phase, for a point given geographically (the only
    mode in which the checks are reached), when the three tolerance checks
    pass the routine returns a record; the ray is the first argmin of
    [|azimuth_i - az| + |elevation_i - el|], the bin the first argmin of
    [|range_j - r|], both as the code computes them in double precision,
    and the used antenna coordinates are the azimuth and elevation stored
    for that ray and the range stored for that bin. *)
Theorem point_measurement_selects_nearest
    (E : Extern) (dscfg : DsCfg) (radar : Volume)
    (dtype field_name : string) (data : list (list Q)) (az el r : Q) :
  selects E dscfg dtype field_name ->
  cfg_latlon dscfg = true ->
  fields radar !! field_name = Some data ->
  well_shaped radar data ->
  requested E dscfg radar = (az, el, r) ->
  within_tolerance (azimuth_data radar) az (cfg_AziTol dscfg) ->
  within_tolerance (elevation_data radar) el (cfg_EleTol dscfg) ->
  within_tolerance (range_data radar) r (cfg_RngTol dscfg) ->
  exists ind_ray ind_r row val t used_az used_el used_r,
    is_first_argmin (combined_distances radar az el) ind_ray /\
    is_first_argmin (distances (range_data radar) r) ind_r /\
    azimuth_data radar !! ind_ray = Some used_az /\
    elevation_data radar !! ind_ray = Some used_el /\
    range_data radar !! ind_r = Some used_r /\
    time_data radar !! ind_ray = Some t /\
    data !! ind_ray = Some row /\ row !! ind_r = Some val /\
    process_point_measurement E 1 dscfg (Some radar)
    = (Return (Some
         {| value := val;
            datatype := dtype;
            time := Num2date t (time_units radar) (time_calendar radar);
            point_coordinates_WGS84_lon_lat_alt :=
              (cfg_lon dscfg, cfg_lat dscfg, cfg_alt dscfg);
            antenna_coordinates_az_el_r := (az, el, r);
            used_antenna_coordinates_az_el_r := (used_az, used_el, used_r)
         |}), []).
Proof.
  intros Hsel Hgeo Hdata Hshape Hreq Haz Hel Hr.
  rewrite (process_point_measurement_geographic E _ _ _ _ Hsel)
    by (rewrite ?Hdata; eauto).
  rewrite (geographic_point_requested E _ _ _ _ _ Hreq).
  now apply locate_bin_selects.
Qed.

(** C2: once the antenna coordinates are known the azimuth, elevation and
    range checks run in this order; the first one whose minimum distance
    exceeds its tolerance ends the call with no result and one warning,
    whose text holds [str] of the requested [az], [el] and [r], the name
    of the axis and [str] of that minimum, whatever the later axes hold.  With azimuths 10, 20, 30 and a query at 25 the
    tolerance 3 fails with distance 5 and the tolerance 6 goes on to the
    elevation check. *)
Theorem point_measurement_tolerance_gates
    (E : Extern) (dscfg : DsCfg) (radar : Volume)
    (dtype field_name : string) (az el r : Q) :
  selects E dscfg dtype field_name ->
  cfg_latlon dscfg = true ->
  is_Some (fields radar !! field_name) ->
  requested E dscfg radar = (az, el, r) ->
  (beyond_tolerance (azimuth_data radar) az (cfg_AziTol dscfg) ->
   exists d, is_minimum (distances (azimuth_data radar) az) d /\
     process_point_measurement E 1 dscfg (Some radar)
     = (Return None,
        [ [ Lit " No radar bin found for point (az, el, r):(";
            Str az; Lit ", "; Str el; Lit ", "; Str r;
            Lit "). Minimum distance to radar azimuth "; Str d;
            Lit " larger than tolerance" ] ])) /\
  (within_tolerance (azimuth_data radar) az (cfg_AziTol dscfg) ->
   beyond_tolerance (elevation_data radar) el (cfg_EleTol dscfg) ->
   exists d, is_minimum (distances (elevation_data radar) el) d /\
     process_point_measurement E 1 dscfg (Some radar)
     = (Return None,
        [ [ Lit " No radar bin found for point (az, el, r):(";
            Str az; Lit ", "; Str el; Lit ", "; Str r;
            Lit "). Minimum distance to radar elevation "; Str d;
            Lit " larger than tolerance" ] ])) /\
  (within_tolerance (azimuth_data radar) az (cfg_AziTol dscfg) ->
   within_tolerance (elevation_data radar) el (cfg_EleTol dscfg) ->
   beyond_tolerance (range_data radar) r (cfg_RngTol dscfg) ->
   exists d, is_minimum (distances (range_data radar) r) d /\
     process_point_measurement E 1 dscfg (Some radar)
     = (Return None,
        [ [ Lit " No radar bin found for point (az, el, r):(";
            Str az; Lit ", "; Str el; Lit ", "; Str r;
            Lit "). Minimum distance to radar range bin "; Str d;
            Lit " larger than tolerance" ] ])) /\
  (azimuth_data radar = [10; 20; 30] -> az = 25 ->
   (cfg_AziTol dscfg = 3 ->
    process_point_measurement E 1 dscfg (Some radar)
    = (Return None,
       [ [ Lit " No radar bin found for point (az, el, r):(";
           Str 25; Lit ", "; Str el; Lit ", "; Str r;
           Lit "). Minimum distance to radar azimuth "; Str 5;
           Lit " larger than tolerance" ] ])) /\
   (cfg_AziTol dscfg = 6 ->
    beyond_tolerance (elevation_data radar) el (cfg_EleTol dscfg) ->
    exists d, is_minimum (distances (elevation_data radar) el) d /\
      process_point_measurement E 1 dscfg (Some radar)
      = (Return None,
         [ [ Lit " No radar bin found for point (az, el, r):(";
             Str 25; Lit ", "; Str el; Lit ", "; Str r;
             Lit "). Minimum distance to radar elevation "; Str d;
             Lit " larger than tolerance" ] ]))).
Proof.
  intros Hsel Hgeo Hfield Hreq.
  rewrite (process_point_measurement_geographic E _ _ _ _ Hsel Hfield Hgeo).
  rewrite (geographic_point_requested E _ _ _ _ _ Hreq).
  split; [apply locate_bin_azimuth_fails |].
  split; [apply locate_bin_elevation_fails |].
  split; [apply locate_bin_range_fails |].
  intros Hrays ->. split.
  - intros Htol. unfold locate_bin. rewrite Hrays, Htol. reflexivity.
  - intros Htol Hel. apply locate_bin_elevation_fails; [| exact Hel].
    rewrite Hrays, Htol. exists 5. split; [| discriminate].
    apply list_elem_of_In. simpl. right. left. reflexivity.
Qed.

Lemma double_selects (dscfg : DsCfg) :
  cfg_datatype dscfg = ["dBZ"] ->
  selects Double.extern dscfg "dBZ" "reflectivity".
Proof.
  intros H. exists "dBZ", "RAINBOW", "", "". rewrite H. repeat split.
Qed.

Lemma point_measurement_selects_nearest_witness :
  exists ind_ray ind_r row val t used_az used_el used_r,
    is_first_argmin (combined_distances Double.volume 10 4) ind_ray /\
    is_first_argmin (distances (range_data Double.volume) 1600) ind_r /\
    azimuth_data Double.volume !! ind_ray = Some used_az /\
    elevation_data Double.volume !! ind_ray = Some used_el /\
    range_data Double.volume !! ind_r = Some used_r /\
    time_data Double.volume !! ind_ray = Some t /\
    [[11; 12]; [21; 22]] !! ind_ray = Some row /\ row !! ind_r = Some val /\
    process_point_measurement Double.extern 1
      (Double.query 10 4 1600 5 5 200) (Some Double.volume)
    = (Return (Some
         {| value := val;
            datatype := "dBZ";
            time := Num2date t (time_units Double.volume)
                      (time_calendar Double.volume);
            point_coordinates_WGS84_lon_lat_alt := (1600, 10, 4);
            antenna_coordinates_az_el_r := (10, 4, 1600);
            used_antenna_coordinates_az_el_r := (used_az, used_el, used_r)
         |}), []).
Proof.
  apply (point_measurement_selects_nearest Double.extern
           (Double.query 10 4 1600 5 5 200) Double.volume
           "dBZ" "reflectivity" [[11; 12]; [21; 22]] 10 4 1600).
  - apply double_selects. reflexivity.
  - reflexivity.
  - vm_compute. reflexivity.
  - repeat split. repeat constructor.
  - reflexivity.
  - exists 0. split; [| discriminate].
    apply list_elem_of_In. simpl. left. reflexivity.
  - exists 1. split; [| discriminate].
    apply list_elem_of_In. simpl. right. left. reflexivity.
  - exists 100. split; [| discriminate].
    apply list_elem_of_In. simpl. right. left. reflexivity.
Defined.

(** The bin selection example of the specification: rays (10, 1) and
    (10, 5), bins at 500 m and 1500 m, a query at (10, 4, 1600 m); the used
    coordinates are (10, 5, 1500 m), not the requested ones. *)
Example point_measurement_used_differs :
  process_point_measurement Double.extern 1
    (Double.query 10 4 1600 5 5 200) (Some Double.volume)
  = (Return (Some
       {| value := 22;
          datatype := "dBZ";
          time := Num2date 30 "seconds since 2016-01-01T00:00:00Z"
                    "gregorian";
          point_coordinates_WGS84_lon_lat_alt := (1600, 10, 4);
          antenna_coordinates_az_el_r := (10, 4, 1600);
          used_antenna_coordinates_az_el_r := (10, 5, 1500) |}), []).
Proof. vm_compute. reflexivity. Qed.

(** Rounding decides a tie: for the query (0, 0) the rays (0.0, 0.4) and
    (0.1, 0.3) have the combined distances 0.4 and 0.1 + 0.3, equal as
    doubles, so the first ray is used. *)
Example point_measurement_rounded_tie :
  process_point_measurement Double.extern 1
    (Double.query 0 0 500 1 1 1) (Some Double.volume_tie)
  = (Return (Some
       {| value := 11;
          datatype := "dBZ";
          time := Num2date 0 "seconds since 2016-01-01T00:00:00Z"
                    "gregorian";
          point_coordinates_WGS84_lon_lat_alt := (500, 0, 0);
          antenna_coordinates_az_el_r := (0, 0, 500);
          used_antenna_coordinates_az_el_r :=
            (0, Double.double (4 # 10), 500) |}), []).
Proof. vm_compute. reflexivity. Qed.

(** Rounding decides a check: the ray at azimuth 1.1 is at the computed
    distance 1.1 - 0.1 = 1.0 from the query at 0.1, so the tolerance 1
    passes although the two doubles are farther apart than 1. *)
Example point_measurement_rounded_gate :
  process_point_measurement Double.extern 1
    (Double.query (Double.double (1 # 10)) 0 500 1 1 1)
    (Some Double.volume_edge)
  = (Return (Some
       {| value := 11;
          datatype := "dBZ";
          time := Num2date 0 "seconds since 2016-01-01T00:00:00Z"
                    "gregorian";
          point_coordinates_WGS84_lon_lat_alt :=
            (500, Double.double (1 # 10), 0);
          antenna_coordinates_az_el_r := (Double.double (1 # 10), 0, 500);
          used_antenna_coordinates_az_el_r :=
            (Double.double (11 # 10), 0, 500) |}), [])
  /\ (1 < Double.double (11 # 10) - Double.double (1 # 10))%Q.
Proof. split; vm_compute; reflexivity. Qed.

Lemma point_measurement_tolerance_gates_witness :
  process_point_measurement Double.extern 1
    (Double.query 25 1 1600 3 5 200) (Some Double.volume3)
  = (Return None,
     [ [ Lit " No radar bin found for point (az, el, r):(";
         Str 25; Lit ", "; Str 1; Lit ", "; Str 1600;
         Lit "). Minimum distance to radar azimuth "; Str 5;
         Lit " larger than tolerance" ] ]).
Proof.
  refine (proj1 (proj2 (proj2 (proj2
    (point_measurement_tolerance_gates Double.extern
       (Double.query 25 1 1600 3 5 200) Double.volume3
       "dBZ" "reflectivity" 25 1 1600 _ _ _ _))) _ _) _).
  - apply double_selects. reflexivity.
  - reflexivity.
  - vm_compute. eexists. reflexivity.
  - reflexivity.
  - reflexivity.
  - reflexivity.
  - reflexivity.
Defined.

(** C7: in the PROCESS phase, when the field the configuration selects is
    not among the fields of the volume, the routine returns no result
    with one warning and does not raise; the geometry functions and the
    input mode play no part. *)
Theorem point_measurement_field_absent
    (E : Extern) (dscfg : DsCfg) (radar : Volume)
    (dtype field_name : string) :
  selects E dscfg dtype field_name ->
  fields radar !! field_name = None ->
  process_point_measurement E 1 dscfg (Some radar)
  = (Return None, [field_message]).
Proof.
  intros Hsel Hnone.
  rewrite (process_point_measurement_process E _ _ _ _ Hsel).
  rewrite bool_decide_eq_false_2; [reflexivity |].
  now apply not_elem_of_dom.
Qed.

Lemma point_measurement_field_absent_witness :
  process_point_measurement Double.extern 1
    (Double.antenna_query 10 4 1600 5 5 200)
    (Some {| time_data := [0]; time_units := ""; time_calendar := "";
             range_data := [500]; azimuth_data := [10];
             elevation_data := [1]; longitude_data := 8;
             latitude_data := 46; altitude_data := 0;
             fields := {[ "differential_reflectivity" := [[1]] ]} |})
  = (Return None, [field_message]).
Proof.
  apply (point_measurement_field_absent Double.extern _ _
           "dBZ" "reflectivity").
  - apply double_selects. reflexivity.
  - vm_compute. reflexivity.
Defined.

(** C5 (the code departs from it): in the PROCESS phase with the field
    present, a point given in antenna coordinates makes the routine raise
    [NameError] at the call of [antenna_to_cartesian], before any record
    is built. *)
Theorem point_measurement_antenna_mode_raises
    (E : Extern) (dscfg : DsCfg) (radar : Volume)
    (dtype field_name : string) :
  selects E dscfg dtype field_name ->
  is_Some (fields radar !! field_name) ->
  cfg_latlon dscfg = false ->
  process_point_measurement E 1 dscfg (Some radar)
  = (Raise (NameError "antenna_to_cartesian"), []).
Proof.
  intros Hsel Hfield Hant.
  rewrite (process_point_measurement_process E _ _ _ _ Hsel).
  rewrite bool_decide_eq_true_2 by now apply elem_of_dom.
  rewrite Hant. reflexivity.
Qed.

Lemma point_measurement_antenna_mode_raises_witness :
  process_point_measurement Double.extern 1
    (Double.antenna_query 10 5 1500 1 1 100) (Some Double.volume)
  = (Raise (NameError "antenna_to_cartesian"), []).
Proof.
  apply (point_measurement_antenna_mode_raises Double.extern _ _
           "dBZ" "reflectivity").
  - apply double_selects. reflexivity.
  - vm_compute. eexists. reflexivity.
  - reflexivity.
Defined.



Lemma requested_origin (E : Extern) (dscfg : DsCfg) (r1 r2 : Volume) :
  longitude_data r1 = longitude_data r2 ->
  latitude_data r1 = latitude_data r2 ->
  altitude_data r1 = altitude_data r2 ->
  requested E dscfg r1 = requested E dscfg r2.
Proof.
  unfold requested, geographic_point, projparams_of.
  now intros -> -> ->.
Qed.

Lemma Qabs_offset (a d : Q) : Qabs (a + d - a) == Qabs d.
Proof. apply Qabs_wd. ring. Qed.

Lemma distance_offset (a d : Q) :
  distance (a + d) a = Qabs (Np.round64 d).
Proof. unfold distance. f_equal. apply round64_comp. ring. Qed.

Lemma within_tolerance_at (axis : list Q) (x tol : Q) (i : nat) (a : Q) :
  axis !! i = Some a -> distance a x <= tol -> within_tolerance axis x tol.
Proof.
  intros Hi Hle. exists (distance a x). split; [| exact Hle].
  apply list_elem_of_lookup. exists i. rewrite distances_lookup, Hi.
  reflexivity.
Qed.

Lemma first_argmin_of_two (x0 x1 : Q) (i : nat) :
  is_first_argmin [x0; x1] i -> x0 <= x1 -> i = 0%nat.
Proof.
  intros (d & Hd & _ & Hbefore) Hle.
  destruct i as [| [| n]]; [reflexivity | | discriminate Hd].
  exfalso. injection Hd as <-.
  apply (Qlt_not_le x1 x0); [| exact Hle].
  apply (Hbefore 0%nat x0); [lia | reflexivity].
Qed.

(** Two rays at offsets [(a0, e0)] and [(a1, e1)] from the requested
    direction: when the first is not farther in the combined distance it
    is the selected ray, whatever passes the checks axis by axis. *)
Lemma two_rays_select_first
    (E : Extern) (dt0 datagroup dtype dataset product field_name : string)
    (a0 e0 a1 e1 tol : Q) :
  get_datatype_fields E dt0 = Return (datagroup, dtype, dataset, product) ->
  get_fieldname_pyart E dtype = Return field_name ->
  Np.round64 (Qabs (Np.round64 a0) + Qabs (Np.round64 e0))
  <= Np.round64 (Qabs (Np.round64 a1) + Qabs (Np.round64 e1)) ->
  Qabs (Np.round64 a0) <= tol \/ Qabs (Np.round64 a1) <= tol ->
  Qabs (Np.round64 e0) <= tol \/ Qabs (Np.round64 e1) <= tol ->
  0 <= tol ->
  exists dscfg radar rec az el r,
    process_point_measurement E 1 dscfg (Some radar)
    = (Return (Some rec), []) /\
    antenna_coordinates_az_el_r rec = (az, el, r) /\
    used_antenna_coordinates_az_el_r rec = (az + a0, el + e0, r) /\
    cfg_AziTol dscfg = tol /\ cfg_EleTol dscfg = tol /\
    within_tolerance (azimuth_data radar) az (cfg_AziTol dscfg) /\
    within_tolerance (elevation_data radar) el (cfg_EleTol dscfg) /\
    within_tolerance (range_data radar) r (cfg_RngTol dscfg).
Proof.
  intros Hfields Hname Hnear Haz Hel Htol.
  set (dscfg := {| cfg_datatype := [dt0]; cfg_latlon := true;
                   cfg_truealt := true; cfg_lon := 0; cfg_lat := 0;
                   cfg_alt := 0; cfg_ele := 0; cfg_azi := 0; cfg_rng := 0;
                   cfg_AziTol := tol; cfg_EleTol := tol;
                   cfg_RngTol := tol |}).
  set (origin := {| time_data := []; time_units := ""; time_calendar := "";
                    range_data := []; azimuth_data := [];
                    elevation_data := []; longitude_data := 0;
                    latitude_data := 0; altitude_data := 0;
                    fields := ∅ |}).
  destruct (requested E dscfg origin) as [[az el] r] eqn:Hreq0.
  set (radar := {| time_data := [0; 0]; time_units := "";
                   time_calendar := ""; range_data := [r];
                   azimuth_data := [az + a0; az + a1];
                   elevation_data := [el + e0; el + e1];
                   longitude_data := 0; latitude_data := 0;
                   altitude_data := 0;
                   fields := {[ field_name := [[0]; [0]] ]} |}).
  assert (Hreq : requested E dscfg radar = (az, el, r))
    by (rewrite <- Hreq0; now apply requested_origin).
  assert (Hsel : selects E dscfg dtype field_name)
    by (exists dt0, datagroup, dataset, product; now repeat split).
  assert (Hdata : fields radar !! field_name = Some [[0]; [0]])
    by apply lookup_singleton_eq.
  assert (Hin_az : within_tolerance (azimuth_data radar) az tol).
  { destruct Haz as [H | H];
      [apply (within_tolerance_at _ _ _ 0%nat (az + a0))
      | apply (within_tolerance_at _ _ _ 1%nat (az + a1))];
      try reflexivity; now rewrite distance_offset. }
  assert (Hin_el : within_tolerance (elevation_data radar) el tol).
  { destruct Hel as [H | H];
      [apply (within_tolerance_at _ _ _ 0%nat (el + e0))
      | apply (within_tolerance_at _ _ _ 1%nat (el + e1))];
      try reflexivity; now rewrite distance_offset. }
  assert (Hin_r : within_tolerance (range_data radar) r tol).
  { apply (within_tolerance_at _ _ _ 0%nat r); [reflexivity |].
    apply Qle_trans with 0; [| exact Htol].
    apply distance_zero_iff. reflexivity. }
  destruct (locate_bin_selects dscfg radar field_name dtype
              (cfg_lon dscfg) (cfg_lat dscfg) (cfg_alt dscfg) r az el
              [[0]; [0]] Hdata)
    as (ind_ray & ind_r & row & val & t & used_az & used_el & used_r
        & Hray & Hbin & Hused_az & Hused_el & Hused_r & _ & _ & _ & Hrun);
    try assumption.
  { repeat split. repeat constructor. }
  assert (ind_ray = 0%nat) as ->.
  { change (combined_distances radar az el)
      with [Np.round64 (distance (az + a0) az + distance (el + e0) el);
            Np.round64 (distance (az + a1) az + distance (el + e1) el)]
      in Hray.
    apply (first_argmin_of_two _ _ _ Hray). now rewrite !distance_offset. }
  assert (ind_r = 0%nat) as ->.
  { destruct Hbin as (d & Hd & _). now destruct ind_r. }
  injection Hused_az as <-. injection Hused_el as <-.
  injection Hused_r as <-.
  eexists dscfg, radar, _, az, el, r.
  split.
  { rewrite (process_point_measurement_geographic E _ _ _ _ Hsel)
      by (rewrite ?Hdata; eauto).
    rewrite (geographic_point_requested E _ _ _ _ _ Hreq). exact Hrun. }
  repeat split; assumption.
Qed.

(** C10: whatever the geometry functions compute, there are a volume and
    a configuration for which the three checks pass and the routine
    returns a record whose used azimuth is farther from the requested
    azimuth than [AziTol], and others for which the used elevation is
    farther from the requested elevation than [EleTol]. *)
Theorem selected_ray_may_exceed_tolerance
    (E : Extern)
    (dt0 datagroup dtype dataset product field_name : string) :
  get_datatype_fields E dt0 = Return (datagroup, dtype, dataset, product) ->
  get_fieldname_pyart E dtype = Return field_name ->
  (exists dscfg radar rec az el r used_az used_el used_r,
     process_point_measurement E 1 dscfg (Some radar)
     = (Return (Some rec), []) /\
     antenna_coordinates_az_el_r rec = (az, el, r) /\
     used_antenna_coordinates_az_el_r rec = (used_az, used_el, used_r) /\
     within_tolerance (azimuth_data radar) az (cfg_AziTol dscfg) /\
     within_tolerance (elevation_data radar) el (cfg_EleTol dscfg) /\
     within_tolerance (range_data radar) r (cfg_RngTol dscfg) /\
     cfg_AziTol dscfg < Qabs (used_az - az)) /\
  (exists dscfg radar rec az el r used_az used_el used_r,
     process_point_measurement E 1 dscfg (Some radar)
     = (Return (Some rec), []) /\
     antenna_coordinates_az_el_r rec = (az, el, r) /\
     used_antenna_coordinates_az_el_r rec = (used_az, used_el, used_r) /\
     within_tolerance (azimuth_data radar) az (cfg_AziTol dscfg) /\
     within_tolerance (elevation_data radar) el (cfg_EleTol dscfg) /\
     within_tolerance (range_data radar) r (cfg_RngTol dscfg) /\
     cfg_EleTol dscfg < Qabs (used_el - el)).
Proof.
  intros Hfields Hname. split.
  - destruct (two_rays_select_first E _ _ _ _ _ _ 10 0 0 10 1 Hfields Hname)
      as (dscfg & radar & rec & az & el & r & Hrun & Hreq & Hused
          & Htol & _ & Haz & Hel & Hr);
      [vm_compute; discriminate | right; vm_compute; discriminate
      | left; vm_compute; discriminate | discriminate |].
    exists dscfg, radar, rec, az, el, r, (az + 10), (el + 0), r.
    repeat split; try assumption.
    rewrite Htol, Qabs_offset. reflexivity.
  - destruct (two_rays_select_first E _ _ _ _ _ _ 0 10 10 0 1 Hfields Hname)
      as (dscfg & radar & rec & az & el & r & Hrun & Hreq & Hused
          & _ & Htol & Haz & Hel & Hr);
      [vm_compute; discriminate | left; vm_compute; discriminate
      | right; vm_compute; discriminate | discriminate |].
    exists dscfg, radar, rec, az, el, r, (az + 0), (el + 10), r.
    repeat split; try assumption.
    rewrite Htol, Qabs_offset. reflexivity.
Qed.

Lemma selected_ray_may_exceed_tolerance_witness :
  exists dscfg radar rec az el r used_az used_el used_r,
    process_point_measurement Double.extern 1 dscfg (Some radar)
    = (Return (Some rec), []) /\
    antenna_coordinates_az_el_r rec = (az, el, r) /\
    used_antenna_coordinates_az_el_r rec = (used_az, used_el, used_r) /\
    within_tolerance (azimuth_data radar) az (cfg_AziTol dscfg) /\
    within_tolerance (elevation_data radar) el (cfg_EleTol dscfg) /\
    within_tolerance (range_data radar) r (cfg_RngTol dscfg) /\
    cfg_AziTol dscfg < Qabs (used_az - az).
Proof.
  exact (proj1 (selected_ray_may_exceed_tolerance Double.extern
                  "dBZ" "RAINBOW" "dBZ" "" "" "reflectivity"
                  eq_refl eq_refl)).
Defined.

(** A run of it: the query (az 0, el 0, r 500) with all tolerances 1
    passes the three checks on [Double.volume_split] (azimuth 0 is the
    second ray's, elevation 0 the first ray's) and the record uses the
    first ray, 10 degrees away in azimuth. *)
Example point_measurement_split_rays :
  process_point_measurement Double.extern 1
    (Double.query 0 0 500 1 1 1) (Some Double.volume_split)
  = (Return (Some
       {| value := 11;
          datatype := "dBZ";
          time := Num2date 0 "seconds since 2016-01-01T00:00:00Z"
                    "gregorian";
          point_coordinates_WGS84_lon_lat_alt := (500, 0, 0);
          antenna_coordinates_az_el_r := (0, 0, 500);
          used_antenna_coordinates_az_el_r := (10, 0, 500) |}), []).
Proof. vm_compute. reflexivity. Qed.

End PointMeasurement.

(** ** Pass-through routines and the store *)

Section HeapFacts.
Import Heap.
Local Open Scope list_scope.

Lemma copied_mono (σ0 σ σ' : gmap loc ndarray) (l l' : loc) :
  copied σ0 σ l l' -> σ ⊆ σ' -> copied σ0 σ' l l'.
Proof.
  intros (Hfresh & [a Ha] & Hl') Hsub. repeat split; eauto.
  rewrite Ha in Hl' |- *. eapply lookup_weaken; eauto.
Qed.

Lemma copy_array_spec
    (σ0 : gmap loc ndarray) (st : copy_state) (l : loc) :
  copy_inv σ0 st -> is_Some (σ0 !! l) ->
  exists l' st', copy_array l st = (l', st') /\
    copy_inv σ0 st' /\ snd st ⊆ snd st' /\ copied σ0 (snd st') l l'.
Proof.
  intros [Hsub Hmemo] [a Ha]. destruct st as [memo σ]. simpl in *.
  unfold copy_array. simpl.
  destruct (memo !! l) as [l1 |] eqn:Hl.
  - exists l1, (memo, σ). split; [reflexivity |].
    split; [now split |]. split; [reflexivity |]. now apply Hmemo.
  - pose proof (lookup_weaken _ _ _ _ Ha Hsub) as Hσ. rewrite Hσ.
    set (l' := fresh (dom σ)).
    assert (Hnew : l' ∉ dom σ) by apply is_fresh.
    assert (Hnone : σ !! l' = None) by now apply not_elem_of_dom.
    assert (Hgrow : σ ⊆ <[l' := a]> σ) by now apply insert_subseteq.
    assert (Hcopy : copied σ0 (<[l' := a]> σ) l l').
    { split; [| split].
      - intros Hin. apply Hnew. revert Hin. apply subseteq_dom. exact Hsub.
      - now exists a.
      - now rewrite lookup_insert_eq. }
    exists l', (<[l := l']> memo, <[l' := a]> σ).
    split; [reflexivity |]. split; [| split; [exact Hgrow | exact Hcopy]].
    split; simpl; [now transitivity σ |].
    intros l2 l2' Hl2. destruct (decide (l = l2)) as [<- | Hne].
    + rewrite lookup_insert_eq in Hl2. now injection Hl2 as <-.
    + rewrite lookup_insert_ne in Hl2 by exact Hne.
      eapply copied_mono; eauto.
Qed.

Lemma copy_fields_spec (fs : list (string * loc)) :
  forall (σ0 : gmap loc ndarray) (st : copy_state),
  copy_inv σ0 st -> Forall (fun l => is_Some (σ0 !! l)) (List.map snd fs) ->
  exists fs' st', copy_fields fs st = (fs', st') /\
    copy_inv σ0 st' /\ snd st ⊆ snd st' /\
    List.map fst fs' = List.map fst fs /\
    Forall2 (copied σ0 (snd st')) (List.map snd fs) (List.map snd fs').
Proof.
  induction fs as [| [k l] fs IH]; intros σ0 st Hinv Hall; simpl.
  - exists [], st. split; [reflexivity |]. split; [exact Hinv |].
    split; [reflexivity |]. split; [reflexivity | constructor].
  - apply Forall_cons in Hall as [Hl Hall]. simpl in Hl.
    destruct (copy_array_spec σ0 st l Hinv Hl)
      as (l' & st1 & -> & Hinv1 & Hsub1 & Hcopy1).
    destruct (IH σ0 st1 Hinv1 Hall)
      as (fs' & st2 & -> & Hinv2 & Hsub2 & Hkeys & Hcopies).
    exists ((k, l') :: fs'), st2. split; [reflexivity |].
    split; [exact Hinv2 |]. split; [now transitivity (snd st1) |].
    split; [simpl; now rewrite Hkeys |].
    simpl. constructor; [| exact Hcopies].
    eapply copied_mono; eauto.
Qed.

Lemma deepcopy_from_spec
    (σ0 : gmap loc ndarray) (st : copy_state) (r : Radar) :
  copy_inv σ0 st -> allocated σ0 r ->
  exists r' st', deepcopy_from r st = (r', st') /\
    copy_inv σ0 st' /\ snd st ⊆ snd st' /\ copy_of σ0 (snd st') r r'.
Proof.
  intros Hinv Halloc. unfold allocated, locs in Halloc.
  apply Forall_app in Halloc as [Hhead Hfields].
  repeat match goal with
  | H : Forall _ (_ :: _) |- _ =>
      let Hl := fresh "Hl" in apply Forall_cons in H as [Hl H]
  end.
  unfold deepcopy_from.
  destruct (copy_array_spec σ0 st _ Hinv Hl)
    as (t & st1 & -> & Hinv1 & Hsub1 & Hc1).
  destruct (copy_array_spec σ0 st1 _ Hinv1 Hl0)
    as (rg & st2 & -> & Hinv2 & Hsub2 & Hc2).
  destruct (copy_array_spec σ0 st2 _ Hinv2 Hl1)
    as (az & st3 & -> & Hinv3 & Hsub3 & Hc3).
  destruct (copy_array_spec σ0 st3 _ Hinv3 Hl2)
    as (el & st4 & -> & Hinv4 & Hsub4 & Hc4).
  destruct (copy_array_spec σ0 st4 _ Hinv4 Hl3)
    as (lon & st5 & -> & Hinv5 & Hsub5 & Hc5).
  destruct (copy_array_spec σ0 st5 _ Hinv5 Hl4)
    as (lat & st6 & -> & Hinv6 & Hsub6 & Hc6).
  destruct (copy_array_spec σ0 st6 _ Hinv6 Hl5)
    as (alt & st7 & -> & Hinv7 & Hsub7 & Hc7).
  destruct (copy_fields_spec (r_fields r) σ0 st7 Hinv7 Hfields)
    as (fs & st8 & -> & Hinv8 & Hsub8 & Hkeys & Hcs).
  eexists _, st8. split; [reflexivity |]. split; [exact Hinv8 |].
  assert (H78 : snd st7 ⊆ snd st8) by exact Hsub8.
  assert (H68 : snd st6 ⊆ snd st8) by now transitivity (snd st7).
  assert (H58 : snd st5 ⊆ snd st8) by now transitivity (snd st6).
  assert (H48 : snd st4 ⊆ snd st8) by now transitivity (snd st5).
  assert (H38 : snd st3 ⊆ snd st8) by now transitivity (snd st4).
  assert (H28 : snd st2 ⊆ snd st8) by now transitivity (snd st3).
  assert (H18 : snd st1 ⊆ snd st8) by now transitivity (snd st2).
  split; [now transitivity (snd st1) |].
  unfold copy_of, locs. simpl. repeat split; try exact Hkeys.
  repeat (constructor; [eapply copied_mono; eauto |]).
  exact Hcs.
Qed.

Lemma contents_fields_copied
    (σ0 σ : gmap loc ndarray) (fs : list (string * loc)) :
  forall fs' : list (string * loc),
  List.map fst fs' = List.map fst fs ->
  Forall2 (copied σ0 σ) (List.map snd fs) (List.map snd fs') ->
  List.map (fun kv => (fst kv, σ !! snd kv)) fs'
  = List.map (fun kv => (fst kv, σ0 !! snd kv)) fs.
Proof.
  induction fs as [| [k l] fs IH]; intros [| [k' l'] fs'] Hkeys Hcs;
    simpl in *; try reflexivity; try discriminate.
  apply Forall2_cons in Hcs as [(_ & _ & Hl) Hcs].
  injection Hkeys as -> Hkeys. rewrite Hl. f_equal. now apply IH.
Qed.

(** A copy holds what the original held when the copy started. *)
Lemma contents_copy_of (σ0 σ : gmap loc ndarray) (r r' : Radar) :
  copy_of σ0 σ r r' -> contents σ r' = contents σ0 r.
Proof.
  destruct r, r'. unfold copy_of, contents, radar_map, locs. simpl.
  intros (-> & -> & Hkeys & Hcs).
  repeat match goal with
  | H : Forall2 _ (_ :: _) (_ :: _) |- _ =>
      let Hl := fresh "Hl" in
      apply Forall2_cons in H as [(_ & _ & Hl) H]; rewrite Hl; clear Hl
  end.
  f_equal. now apply contents_fields_copied.
Qed.

(** The contents of an object depend on the store at its locations only. *)
Lemma contents_ext (σ1 σ2 : gmap loc ndarray) (r : Radar) :
  (forall l, l ∈ locs r -> σ1 !! l = σ2 !! l) ->
  contents σ1 r = contents σ2 r.
Proof.
  destruct r. unfold contents, radar_map, locs. simpl. intros Hsame.
  rewrite !(Hsame _) by (repeat first [apply list_elem_of_here
                                       | apply list_elem_of_further]).
  f_equal. apply map_ext_in. intros [k l] Hin. simpl. f_equal.
  apply Hsame. do 7 apply list_elem_of_further.
  apply list_elem_of_In, in_map_iff. now exists (k, l).
Qed.

Lemma copy_of_fresh (σ0 σ : gmap loc ndarray) (r r' : Radar) (l' : loc) :
  copy_of σ0 σ r r' -> l' ∈ locs r' -> l' ∉ dom σ0.
Proof.
  intros (_ & _ & _ & Hcs) Hin.
  apply list_elem_of_lookup in Hin as [i Hi].
  destruct (Forall2_lookup_r _ _ _ _ _ Hcs Hi) as (l & _ & Hfresh & _).
  exact Hfresh.
Qed.

Lemma allocated_dom (σ : gmap loc ndarray) (r : Radar) (l : loc) :
  allocated σ r -> l ∈ locs r -> l ∈ dom σ.
Proof.
  unfold allocated. rewrite Forall_forall. intros Halloc Hin.
  apply elem_of_dom. now apply Halloc.
Qed.

(** C9: in the PROCESS phase [process_raw] leaves every array that was in
    the store as it was, so the input volume is unchanged; the volume it
    returns holds the same contents in arrays at locations that did not
    exist before, none of them an array of the input, so that a later
    write to either volume does not show in the other. *)
Theorem process_raw_deep_copy
    (σ : gmap loc ndarray) (dscfg : DsCfg) (radar : Radar) :
  allocated σ radar ->
  exists (new_dataset : Radar) (σ' : gmap loc ndarray),
    process_raw 1 dscfg (Some radar) σ = (Some new_dataset, σ') /\
    (forall l, l ∈ dom σ -> σ' !! l = σ !! l) /\
    contents σ' radar = contents σ radar /\
    contents σ' new_dataset = contents σ radar /\
    volume_of (contents σ' new_dataset) = volume_of (contents σ radar) /\
    (forall l, l ∈ locs new_dataset -> (l ∉ dom σ) /\ (l ∉ locs radar)) /\
    (forall l a, l ∈ locs new_dataset ->
       contents (<[l := a]> σ') radar = contents σ radar) /\
    (forall l a, l ∈ locs radar ->
       contents (<[l := a]> σ') new_dataset = contents σ radar).
Proof.
  intros Halloc.
  assert (Hinv : copy_inv σ (∅, σ)).
  { split; [reflexivity |]. intros l l' Hl. simpl in Hl.
    now rewrite lookup_empty in Hl. }
  destruct (deepcopy_from_spec σ (∅, σ) radar Hinv Halloc)
    as (new_dataset & st & Hrun & _ & Hsub & Hcopy).
  simpl in Hsub.
  exists new_dataset, (snd st).
  assert (Hold : forall l, l ∈ dom σ -> snd st !! l = σ !! l).
  { intros l Hl. apply elem_of_dom in Hl as [a Ha]. rewrite Ha.
    eapply lookup_weaken; eauto. }
  assert (Hfresh : forall l, l ∈ locs new_dataset -> l ∉ dom σ).
  { intros l. now apply (copy_of_fresh σ (snd st) radar). }
  assert (Hinput : contents (snd st) radar = contents σ radar).
  { apply contents_ext. intros l Hl. apply Hold.
    now apply (allocated_dom σ radar). }
  assert (Hnew : contents (snd st) new_dataset = contents σ radar)
    by now apply contents_copy_of.
  split; [unfold process_raw, deepcopy; simpl; now rewrite Hrun |].
  split; [exact Hold |]. split; [exact Hinput |]. split; [exact Hnew |].
  split; [now rewrite Hnew |].
  split; [| split].
  - intros l Hl. split; [now apply Hfresh |].
    intros Hin. apply (Hfresh l Hl). now apply (allocated_dom σ radar).
  - intros l a Hl. rewrite <- Hinput. apply contents_ext. intros l2 Hl2.
    apply lookup_insert_ne. intros ->.
    apply (Hfresh l2 Hl). now apply (allocated_dom σ radar).
  - intros l a Hl. rewrite <- Hnew. apply contents_ext. intros l2 Hl2.
    apply lookup_insert_ne. intros ->.
    apply (Hfresh l2 Hl2). now apply (allocated_dom σ radar).
Qed.

Lemma process_raw_deep_copy_witness :
  exists (new_dataset : Radar) (σ' : gmap loc ndarray),
    process_raw 1 (Double.query 10 4 1600 5 5 200)
      (Some Double.radar) Double.store
    = (Some new_dataset, σ') /\
    contents σ' Double.radar = contents Double.store Double.radar /\
    contents σ' new_dataset = contents Double.store Double.radar /\
    (forall l, l ∈ locs new_dataset -> l ∉ locs Double.radar).
Proof.
  destruct (process_raw_deep_copy Double.store
              (Double.query 10 4 1600 5 5 200) Double.radar)
    as (new_dataset & σ' & Hrun & _ & Hinput & Hnew & _ & Hfresh & _).
  - unfold allocated. repeat constructor; vm_compute; eexists; reflexivity.
  - exists new_dataset, σ'. repeat split; try assumption.
    intros l Hl. now apply Hfresh.
Defined.

(** C8: with a processing status other than 1 (0 while initializing, 2
    while post-processing) each of the three routines returns no result,
    leaves the store alone and emits no warning, for any configuration
    and any volume. *)
Theorem routines_return_none_outside_process
    (E : Extern) (procstatus : Z) (dscfg : DsCfg)
    (radar : option Radar) (σ : gmap loc ndarray) (volume : option Volume) :
  procstatus <> 1%Z ->
  process_raw procstatus dscfg radar σ = (None, σ) /\
  process_save_radar procstatus dscfg radar σ = (None, σ) /\
  process_point_measurement E procstatus dscfg volume = (Return None, []).
Proof.
  intros Hphase. apply Z.eqb_neq in Hphase.
  unfold process_raw, process_save_radar, process_point_measurement.
  now rewrite Hphase.
Qed.

Lemma routines_return_none_outside_process_witness :
  (process_raw 0 (Double.query 10 4 1600 5 5 200) None ∅ = (None, ∅) /\
   process_save_radar 0 (Double.query 10 4 1600 5 5 200) None ∅ = (None, ∅) /\
   process_point_measurement Double.extern 0
     (Double.query 10 4 1600 5 5 200) (Some Double.volume)
   = (Return None, [])) /\
  (process_raw 2 (Double.query 10 4 1600 5 5 200) None ∅ = (None, ∅) /\
   process_save_radar 2 (Double.query 10 4 1600 5 5 200) None ∅ = (None, ∅) /\
   process_point_measurement Double.extern 2
     (Double.query 10 4 1600 5 5 200) (Some Double.volume)
   = (Return None, [])).
Proof.
  split.
  - apply (routines_return_none_outside_process Double.extern 0).
    discriminate.
  - apply (routines_return_none_outside_process Double.extern 2).
    discriminate.
Defined.

End HeapFacts.

(** ** What a returned record implies *)

Lemma bind_lift_Raise {A B : Type} (e : exn) (k : A -> M B) :
  bind (lift (Raise e)) k = (Raise e, []).
Proof. reflexivity. Qed.

(** One step of a run that is known to end with a record: the call at
    the head returned. *)
Ltac returned H name :=
  match type of H with
  | bind (lift ?o) _ = _ =>
      destruct o as [name | ?] eqn:?;
      [rewrite bind_lift_Return in H
      | rewrite bind_lift_Raise in H; discriminate H]
  end.

Section Inversion.
Local Open Scope list_scope.
Local Open Scope Q_scope.

Lemma min_inv (l : list Q) (d : Q) :
  Np.min l = Return d -> is_minimum l d.
Proof.
  intros Hmin. destruct l as [| x l]; [discriminate |].
  destruct (min_spec (x :: l)) as (d' & Hd' & Hspec); [discriminate |].
  rewrite Hmin in Hd'. now injection Hd' as ->.
Qed.

Lemma argmin_inv (l : list Q) (i : nat) :
  Np.argmin l = Return i -> is_first_argmin l i.
Proof.
  intros Harg. destruct l as [| x l]; [discriminate |].
  destruct (argmin_spec (x :: l)) as (i' & Hi' & Hspec); [discriminate |].
  rewrite Harg in Hi'. now injection Hi' as ->.
Qed.

Lemma getitem_inv {A : Type} (l : list A) (i : nat) (a : A) :
  Np.getitem l i = Return a -> l !! i = Some a.
Proof. unfold Np.getitem. destruct (l !! i); now intros [= ->]. Qed.

Lemma getitem2_inv {A : Type} (m : list (list A)) (i j : nat) (a : A) :
  Np.getitem2 m i j = Return a ->
  exists row, m !! i = Some row /\ row !! j = Some a.
Proof.
  unfold Np.getitem2. destruct (m !! i) as [row |]; [| discriminate].
  intros H. exists row. split; [reflexivity | now apply getitem_inv].
Qed.

Lemma getkey_inv {A : Type} (d : gmap string A) (k : string) (a : A) :
  getkey d k = Return a -> d !! k = Some a.
Proof. unfold getkey. destruct (d !! k); now intros [= ->]. Qed.

Lemma gate_inv (axis : list Q) (x tol d : Q) :
  Np.min (Np.abs (Np.sub_scalar axis x)) = Return d ->
  Np.Qgtb d tol = false ->
  is_minimum (distances axis x) d /\ within_tolerance axis x tol.
Proof.
  rewrite abs_sub_scalar. intros Hmin Hle. apply min_inv in Hmin.
  split; [exact Hmin |]. exists d. split; [apply Hmin |].
  now apply Qgtb_false.
Qed.

Variables (dscfg : DsCfg) (radar : Volume) (field_name dtype : string).

Lemma locate_bin_inv
    (lon lat alt r az el : Q) (rec : PointRecord) (w : list message) :
  locate_bin dscfg radar field_name dtype (lon, lat, alt, r, az, el)
  = (Return (Some rec), w) ->
  w = [] /\
  within_tolerance (azimuth_data radar) az (cfg_AziTol dscfg) /\
  within_tolerance (elevation_data radar) el (cfg_EleTol dscfg) /\
  within_tolerance (range_data radar) r (cfg_RngTol dscfg) /\
  exists dist ind_ray ind_r data row val t used_az used_el used_r,
    Np.add (distances (azimuth_data radar) az)
           (distances (elevation_data radar) el) = Return dist /\
    is_first_argmin dist ind_ray /\
    is_first_argmin (distances (range_data radar) r) ind_r /\
    fields radar !! field_name = Some data /\
    data !! ind_ray = Some row /\ row !! ind_r = Some val /\
    time_data radar !! ind_ray = Some t /\
    azimuth_data radar !! ind_ray = Some used_az /\
    elevation_data radar !! ind_ray = Some used_el /\
    range_data radar !! ind_r = Some used_r /\
    rec = {| value := val;
             datatype := dtype;
             time := Num2date t (time_units radar) (time_calendar radar);
             point_coordinates_WGS84_lon_lat_alt := (lon, lat, alt);
             antenna_coordinates_az_el_r := (az, el, r);
             used_antenna_coordinates_az_el_r :=
               (used_az, used_el, used_r) |}.
Proof.
  unfold locate_bin. intros Hrun.
  returned Hrun d_az.
  destruct (Np.Qgtb d_az (cfg_AziTol dscfg)) eqn:Hgaz; [discriminate Hrun |].
  returned Hrun d_el.
  destruct (Np.Qgtb d_el (cfg_EleTol dscfg)) eqn:Hgel; [discriminate Hrun |].
  returned Hrun d_r.
  destruct (Np.Qgtb d_r (cfg_RngTol dscfg)) eqn:Hgr; [discriminate Hrun |].
  returned Hrun dist. returned Hrun ind_ray. returned Hrun ind_r.
  returned Hrun data. returned Hrun val. returned Hrun t.
  returned Hrun used_az. returned Hrun used_el. returned Hrun used_r.
  injection Hrun as <- <-.
  repeat match goal with
  | H : Np.min _ = Return _ |- _ =>
      eapply gate_inv in H as [_ H]; [| eassumption]
  | H : Np.argmin _ = Return _ |- _ => apply argmin_inv in H
  | H : Np.getitem _ _ = Return _ |- _ => apply getitem_inv in H
  | H : getkey _ _ = Return _ |- _ => apply getkey_inv in H
  | H : Np.getitem2 _ _ _ = Return _ |- _ =>
      apply getitem2_inv in H as (row & Hrow & Hval)
  end.
  rewrite !abs_sub_scalar in *.
  repeat (split; [assumption || reflexivity |]).
  exists dist, ind_ray, ind_r, data, row, val, t, used_az, used_el, used_r.
  repeat (split; [assumption |]). reflexivity.
Qed.

End Inversion.

Section RecordReturned.
Local Open Scope list_scope.
Local Open Scope Q_scope.

Lemma process_point_measurement_inv
    (E : Extern) (procstatus : Z) (dscfg : DsCfg) (radar : option Volume)
    (rec : PointRecord) (w : list message) :
  process_point_measurement E procstatus dscfg radar
  = (Return (Some rec), w) ->
  procstatus = 1%Z /\
  exists volume dtype field_name,
    radar = Some volume /\
    selects E dscfg dtype field_name /\
    is_Some (fields volume !! field_name) /\
    cfg_latlon dscfg = true /\
    locate_bin dscfg volume field_name dtype
      (geographic_point E dscfg volume (projparams_of volume))
    = (Return (Some rec), w).
Proof.
  unfold process_point_measurement. intros Hrun.
  destruct (procstatus =? 1)%Z eqn:Hphase; [| discriminate Hrun].
  apply Z.eqb_eq in Hphase. split; [exact Hphase |]. simpl negb in Hrun.
  cbv iota in Hrun.
  returned Hrun dt0. returned Hrun parts.
  destruct parts as [[[datagroup dtype] dataset] product].
  returned Hrun field_name.
  destruct radar as [volume |]; [| discriminate Hrun].
  unfold attr_of in Hrun. rewrite bind_ret in Hrun.
  destruct (bool_decide (field_name ∈ dom (fields volume))) eqn:Hfield;
    [| discriminate Hrun].
  apply bool_decide_eq_true_1, elem_of_dom in Hfield.
  simpl negb in Hrun. cbv iota in Hrun.
  destruct (cfg_latlon dscfg) eqn:Hgeo; [| discriminate Hrun].
  rewrite bind_ret in Hrun.
  exists volume, dtype, field_name. repeat (split; [try assumption |]);
    try assumption; try reflexivity.
  exists dt0, datagroup, dataset, product.
  repeat split; try assumption. now apply getitem_inv.
Qed.

Lemma distances_at (axis : list Q) (x : Q) (i : nat) (a d : Q) :
  axis !! i = Some a -> distances axis x !! i = Some d -> d = distance a x.
Proof. rewrite distances_lookup. intros ->. now intros [= <-]. Qed.

Lemma first_argmin_le (ds : list Q) (i : nat) (d d' : Q) :
  is_first_argmin ds i -> ds !! i = Some d -> d' ∈ ds -> d <= d'.
Proof.
  intros (d0 & Hd0 & Hall & _) Hd Hd'.
  assert (d0 = d) as -> by congruence.
  apply list_elem_of_lookup in Hd' as [j Hj]. now apply (Hall j).
Qed.

(** X4: A record comes out only of the PROCESS phase, only for a point given
    geographically, only after the three checks have passed on the
    distances as computed, and without any warning; it reports the configured longitude, latitude and
    altitude and the antenna coordinates computed from them. *)
Theorem record_only_after_checks
    (E : Extern) (procstatus : Z) (dscfg : DsCfg) (radar : option Volume)
    (rec : PointRecord) (w : list message) :
  process_point_measurement E procstatus dscfg radar
  = (Return (Some rec), w) ->
  procstatus = 1%Z /\ cfg_latlon dscfg = true /\ w = [] /\
  exists volume az el r,
    radar = Some volume /\
    requested E dscfg volume = (az, el, r) /\
    antenna_coordinates_az_el_r rec = (az, el, r) /\
    point_coordinates_WGS84_lon_lat_alt rec
    = (cfg_lon dscfg, cfg_lat dscfg, cfg_alt dscfg) /\
    within_tolerance (azimuth_data volume) az (cfg_AziTol dscfg) /\
    within_tolerance (elevation_data volume) el (cfg_EleTol dscfg) /\
    within_tolerance (range_data volume) r (cfg_RngTol dscfg).
Proof.
  intros Hrun.
  apply process_point_measurement_inv in Hrun
    as (Hphase & volume & dtype & field_name & -> & _ & _ & Hgeo & Hrun).
  destruct (requested E dscfg volume) as [[az el] r] eqn:Hreq.
  rewrite (geographic_point_requested E _ _ _ _ _ Hreq) in Hrun.
  apply locate_bin_inv in Hrun
    as (-> & Haz & Hel & Hr & dist & ind_ray & ind_r & data & row & val & t
        & used_az & used_el & used_r & _ & _ & _ & _ & _ & _ & _ & _ & _ & _
        & ->).
  repeat (split; [assumption || reflexivity |]).
  exists volume, az, el, r. repeat split; assumption.
Qed.

Lemma record_only_after_checks_witness :
  (1 = 1)%Z /\ cfg_latlon (Double.query 10 4 1600 5 5 200) = true /\
  @nil message = [] /\
  exists volume az el r,
    Some Double.volume = Some volume /\
    requested Double.extern (Double.query 10 4 1600 5 5 200) volume
    = (az, el, r) /\
    (10, 4, 1600) = (az, el, r) /\
    (1600, 10, 4) = (1600, 10, 4) /\
    within_tolerance (azimuth_data volume) az 5 /\
    within_tolerance (elevation_data volume) el 5 /\
    within_tolerance (range_data volume) r 200.
Proof.
  refine (record_only_after_checks Double.extern 1
            (Double.query 10 4 1600 5 5 200) (Some Double.volume)
            {| value := 22;
               datatype := "dBZ";
               time := Num2date 30 "seconds since 2016-01-01T00:00:00Z"
                         "gregorian";
               point_coordinates_WGS84_lon_lat_alt := (1600, 10, 4);
               antenna_coordinates_az_el_r := (10, 4, 1600);
               used_antenna_coordinates_az_el_r := (10, 5, 1500) |} [] _).
  vm_compute. reflexivity.
Defined.

(** X5: Whenever a record is returned, the distance of the range it uses
    from the requested range, as the code computes it (the rounded
    difference, in absolute value), is within [RngTol]: unlike the ray,
    the bin is chosen on the axis that was checked. *)
Theorem used_range_within_tolerance
    (E : Extern) (procstatus : Z) (dscfg : DsCfg) (radar : option Volume)
    (rec : PointRecord) (w : list message) (az el r used_az used_el used_r : Q) :
  process_point_measurement E procstatus dscfg radar
  = (Return (Some rec), w) ->
  antenna_coordinates_az_el_r rec = (az, el, r) ->
  used_antenna_coordinates_az_el_r rec = (used_az, used_el, used_r) ->
  Qabs (Np.round64 (used_r - r)) <= cfg_RngTol dscfg.
Proof.
  intros Hrun Hreq Hused.
  apply process_point_measurement_inv in Hrun
    as (_ & volume & dtype & field_name & -> & _ & _ & _ & Hrun).
  destruct (geographic_point E dscfg volume (projparams_of volume))
    as [[[[[lon lat] alt] r'] az'] el'].
  apply locate_bin_inv in Hrun
    as (_ & _ & _ & (d0 & Hd0 & Hle) & dist & ind_ray & ind_r & data & row
        & val & t & uaz & uel & ur & _ & _ & Hbin & _ & _ & _ & _ & _ & _
        & Hur & ->).
  simpl in Hreq, Hused. injection Hreq as -> -> ->.
  injection Hused as -> -> ->.
  apply Qle_trans with d0; [| exact Hle].
  apply (first_argmin_le _ _ _ _ Hbin); [| exact Hd0].
  rewrite distances_lookup, Hur. reflexivity.
Qed.

Lemma used_range_within_tolerance_witness :
  Qabs (Np.round64 (1500 - 1600)) <= 200.
Proof.
  refine (used_range_within_tolerance Double.extern 1
            (Double.query 10 4 1600 5 5 200) (Some Double.volume)
            {| value := 22;
               datatype := "dBZ";
               time := Num2date 30 "seconds since 2016-01-01T00:00:00Z"
                         "gregorian";
               point_coordinates_WGS84_lon_lat_alt := (1600, 10, 4);
               antenna_coordinates_az_el_r := (10, 4, 1600);
               used_antenna_coordinates_az_el_r := (10, 5, 1500) |}
            [] 10 4 1600 10 5 1500 _ _ _).
  - vm_compute. reflexivity.
  - reflexivity.
  - reflexivity.
Defined.

Lemma add_distances_same_length
    (volume : Volume) (az el : Q) (dist : list Q) :
  length (elevation_data volume) = length (azimuth_data volume) ->
  Np.add (distances (azimuth_data volume) az)
         (distances (elevation_data volume) el) = Return dist ->
  dist = combined_distances volume az el.
Proof.
  intros Hlen. unfold Np.add.
  rewrite !distances_length, Hlen, Nat.eqb_refl, zip_add_distances.
  now intros [= <-].
Qed.

Lemma combined_distances_at
    (volume : Volume) (az el : Q) (i : nat) (a e : Q) :
  azimuth_data volume !! i = Some a ->
  elevation_data volume !! i = Some e ->
  combined_distances volume az el !! i
  = Some (Np.round64 (distance a az + distance e el)).
Proof.
  intros Ha He. unfold combined_distances.
  apply lookup_zip_with_Some. now exists a, e.
Qed.

(** The computed combined distance of the ray a returned record uses is
    not larger than that of any other ray. *)
Lemma used_ray_is_nearest
    (E : Extern) (procstatus : Z) (dscfg : DsCfg) (volume : Volume)
    (rec : PointRecord) (w : list message)
    (az el r used_az used_el used_r : Q) (i : nat) (a e : Q) :
  process_point_measurement E procstatus dscfg (Some volume)
  = (Return (Some rec), w) ->
  length (elevation_data volume) = length (azimuth_data volume) ->
  antenna_coordinates_az_el_r rec = (az, el, r) ->
  used_antenna_coordinates_az_el_r rec = (used_az, used_el, used_r) ->
  azimuth_data volume !! i = Some a ->
  elevation_data volume !! i = Some e ->
  Np.round64 (distance used_az az + distance used_el el)
  <= Np.round64 (distance a az + distance e el).
Proof.
  intros Hrun Hlen Hreq Hused Ha He.
  apply process_point_measurement_inv in Hrun
    as (_ & volume' & dtype & field_name & [= <-] & _ & _ & _ & Hrun).
  destruct (geographic_point E dscfg volume (projparams_of volume))
    as [[[[[lon lat] alt] r'] az'] el'].
  apply locate_bin_inv in Hrun
    as (_ & _ & _ & _ & dist & ind_ray & ind_r & data & row
        & val & t & uaz & uel & ur & Hadd & Hray & _ & _ & _ & _ & _ & Huaz
        & Huel & _ & ->).
  simpl in Hreq, Hused. injection Hreq as -> -> ->.
  injection Hused as -> -> ->.
  apply (add_distances_same_length _ _ _ _ Hlen) in Hadd as ->.
  apply (first_argmin_le _ _ _ _ Hray).
  - now apply combined_distances_at.
  - apply list_elem_of_lookup. exists i. now apply combined_distances_at.
Qed.

(** X7: A query that falls exactly on a ray and on a range bin gets the
    coordinates it asked for: in a returned record the used azimuth,
    elevation and range equal the requested ones as numbers. *)
Theorem exact_query_is_returned
    (E : Extern) (procstatus : Z) (dscfg : DsCfg) (volume : Volume)
    (rec : PointRecord) (w : list message)
    (az el r used_az used_el used_r : Q) (i j : nat) (a e b : Q) :
  process_point_measurement E procstatus dscfg (Some volume)
  = (Return (Some rec), w) ->
  length (elevation_data volume) = length (azimuth_data volume) ->
  antenna_coordinates_az_el_r rec = (az, el, r) ->
  used_antenna_coordinates_az_el_r rec = (used_az, used_el, used_r) ->
  azimuth_data volume !! i = Some a -> a == az ->
  elevation_data volume !! i = Some e -> e == el ->
  range_data volume !! j = Some b -> b == r ->
  used_az == az /\ used_el == el /\ used_r == r.
Proof.
  intros Hrun Hlen Hreq Hused Ha Haz He Hel Hb Hr.
  pose proof (used_ray_is_nearest E _ _ _ _ _ _ _ _ _ _ _ _ _ _
                Hrun Hlen Hreq Hused Ha He) as Hnear.
  pose proof (proj2 (distance_zero_iff a az) Haz) as Hzero_az.
  pose proof (proj2 (distance_zero_iff e el) Hel) as Hzero_el.
  pose proof (distance_nonneg a az) as Hpos_a.
  pose proof (distance_nonneg e el) as Hpos_e.
  pose proof (distance_nonneg used_az az) as Hpos_az.
  pose proof (distance_nonneg used_el el) as Hpos_el.
  rewrite (round64_zero (distance a az + distance e el)) in Hnear by lra.
  assert (Hsum : distance used_az az + distance used_el el <= 0).
  { apply Qnot_lt_le. intros Hlt.
    pose proof (round64_positive _ Hlt). lra. }
  split; [apply distance_zero_iff; lra |].
  split; [apply distance_zero_iff; lra |].
  apply process_point_measurement_inv in Hrun
    as (_ & volume' & dtype & field_name & [= <-] & _ & _ & _ & Hrun).
  destruct (geographic_point E dscfg volume (projparams_of volume))
    as [[[[[lon lat] alt] r'] az'] el'].
  apply locate_bin_inv in Hrun
    as (_ & _ & _ & _ & dist & ind_ray & ind_r & data & row
        & val & t & uaz & uel & ur & _ & _ & Hbin & _ & _ & _ & _ & _
        & _ & Hur & ->).
  simpl in Hreq, Hused. injection Hreq as -> -> ->.
  injection Hused as -> -> ->.
  apply distance_zero_iff.
  apply Qle_trans with (distance b r);
    [| now apply distance_zero_iff].
  apply (first_argmin_le _ _ _ _ Hbin).
  - rewrite distances_lookup, Hur. reflexivity.
  - apply list_elem_of_lookup. exists j. rewrite distances_lookup, Hb.
    reflexivity.
Qed.

Lemma exact_query_is_returned_witness :
  10 == 10 /\ 5 == 5 /\ 1500 == 1500.
Proof.
  refine (exact_query_is_returned Double.extern 1
            (Double.query 10 5 1500 5 5 200) Double.volume
            {| value := 22;
               datatype := "dBZ";
               time := Num2date 30 "seconds since 2016-01-01T00:00:00Z"
                         "gregorian";
               point_coordinates_WGS84_lon_lat_alt := (1500, 10, 5);
               antenna_coordinates_az_el_r := (10, 5, 1500);
               used_antenna_coordinates_az_el_r := (10, 5, 1500) |}
            [] 10 5 1500 10 5 1500 1%nat 1%nat 10 5 1500
            _ _ _ _ _ _ _ _ _ _).
  - vm_compute. reflexivity.
  - reflexivity.
  - reflexivity.
  - reflexivity.
  - reflexivity.
  - reflexivity.
  - reflexivity.
  - reflexivity.
  - reflexivity.
  - reflexivity.
Defined.

End RecordReturned.

(** ** Warnings and exceptions *)

Section Failures.
Local Open Scope list_scope.
Local Open Scope Q_scope.

Ltac run_step :=
  match goal with
  | |- quiet_or_warned (bind (lift ?o) _) =>
      destruct o; [rewrite bind_lift_Return | now left]
  | |- quiet_or_warned (if ?b then _ else _) =>
      destruct b; [right; split; [reflexivity | eexists; reflexivity] |]
  end.

Lemma locate_bin_quiet_or_warned
    (dscfg : DsCfg) (radar : Volume) (field_name dtype : string)
    (point : Q * Q * Q * Q * Q * Q) :
  quiet_or_warned (locate_bin dscfg radar field_name dtype point).
Proof.
  destruct point as [[[[[lon lat] alt] r] az] el]. unfold locate_bin.
  repeat run_step. now left.
Qed.

(** X8: Whatever the inputs, a call emits at most one warning, and when it
    emits one it returns no result: a warning never comes with a record
    or with an exception. *)
Theorem at_most_one_warning
    (E : Extern) (procstatus : Z) (dscfg : DsCfg) (radar : option Volume) :
  let run := process_point_measurement E procstatus dscfg radar in
  snd run = [] \/ (fst run = Return None /\ exists msg, snd run = [msg]).
Proof.
  cbv zeta.
  change (quiet_or_warned (process_point_measurement E procstatus dscfg radar)).
  unfold process_point_measurement.
  destruct (negb (procstatus =? 1)%Z); [now left |].
  run_step. run_step. destruct a0 as [[[datagroup dtype] dataset] product].
  run_step.
  destruct radar as [volume |]; [| now left].
  unfold attr_of. rewrite bind_ret. run_step.
  destruct (cfg_latlon dscfg); [| now left].
  rewrite bind_ret. apply locate_bin_quiet_or_warned.
Qed.

(** X9: The default [radar=None] cannot be used in the PROCESS phase: the
    call raises, whatever the configuration and the helpers. *)
Theorem process_without_radar_raises (E : Extern) (dscfg : DsCfg) :
  exists e, process_point_measurement E 1 dscfg None = (Raise e, []).
Proof.
  unfold process_point_measurement. simpl negb. cbv iota.
  destruct (Np.getitem (cfg_datatype dscfg) 0) as [dt0 | e];
    [rewrite bind_lift_Return | now exists e].
  destruct (get_datatype_fields E dt0)
    as [[[[datagroup dtype] dataset] product] | e];
    [rewrite bind_lift_Return | now exists e].
  destruct (get_fieldname_pyart E dtype) as [field_name | e];
    [rewrite bind_lift_Return | now exists e].
  now exists AttributeError.
Qed.

(** X10: A volume without rays is not reported as a point out of tolerance:
    in geographic mode with the field present the minimum over the empty
    azimuth array raises [ValueError]. *)
Theorem no_rays_raises
    (E : Extern) (dscfg : DsCfg) (radar : Volume)
    (dtype field_name : string) :
  selects E dscfg dtype field_name ->
  is_Some (fields radar !! field_name) ->
  cfg_latlon dscfg = true ->
  azimuth_data radar = [] ->
  exists msg,
    process_point_measurement E 1 dscfg (Some radar)
    = (Raise (ValueError msg), []).
Proof.
  intros Hsel Hfield Hgeo Hrays.
  rewrite (process_point_measurement_geographic E _ _ _ _ Hsel Hfield Hgeo).
  destruct (geographic_point E dscfg radar (projparams_of radar))
    as [[[[[lon lat] alt] r] az] el].
  unfold locate_bin. rewrite Hrays. eexists. reflexivity.
Qed.

Lemma no_rays_raises_witness :
  exists msg,
    process_point_measurement Double.extern 1
      (Double.query 10 4 1600 5 5 200)
      (Some {| time_data := []; time_units := ""; time_calendar := "";
               range_data := [500]; azimuth_data := [];
               elevation_data := []; longitude_data := 8;
               latitude_data := 46; altitude_data := 0;
               fields := {[ "reflectivity" := [] ]} |})
    = (Raise (ValueError msg), []).
Proof.
  apply (no_rays_raises Double.extern _ _ "dBZ" "reflectivity").
  - apply double_selects. reflexivity.
  - vm_compute. eexists. reflexivity.
  - reflexivity.
  - reflexivity.
Defined.

(** X11: A negative azimuth tolerance rejects every point: distances are not
    negative, so in geographic mode on a volume with rays the call ends at
    the azimuth check with the azimuth warning. *)
Theorem negative_tolerance_rejects
    (E : Extern) (dscfg : DsCfg) (radar : Volume)
    (dtype field_name : string) (az el r : Q) :
  selects E dscfg dtype field_name ->
  is_Some (fields radar !! field_name) ->
  cfg_latlon dscfg = true ->
  requested E dscfg radar = (az, el, r) ->
  azimuth_data radar <> [] ->
  cfg_AziTol dscfg < 0 ->
  exists d,
    process_point_measurement E 1 dscfg (Some radar)
    = (Return None, [tolerance_message "azimuth" az el r d]).
Proof.
  intros Hsel Hfield Hgeo Hreq Hrays Hneg.
  rewrite (process_point_measurement_geographic E _ _ _ _ Hsel Hfield Hgeo).
  rewrite (geographic_point_requested E _ _ _ _ _ Hreq).
  destruct (locate_bin_azimuth_fails dscfg radar field_name dtype
              (cfg_lon dscfg) (cfg_lat dscfg) (cfg_alt dscfg) r az el)
    as (d & _ & Hrun); [| now exists d].
  split; [exact Hrays |]. intros d Hd.
  unfold distances in Hd. apply list_elem_of_fmap in Hd as (a & -> & _).
  apply Qlt_le_trans with 0; [exact Hneg | apply Qabs_nonneg].
Qed.

Lemma negative_tolerance_rejects_witness :
  exists d,
    process_point_measurement Double.extern 1
      (Double.query 10 5 1500 (-1) 5 200) (Some Double.volume)
    = (Return None, [tolerance_message "azimuth" 10 5 1500 d]).
Proof.
  apply (negative_tolerance_rejects Double.extern _ _ "dBZ" "reflectivity").
  - apply double_selects. reflexivity.
  - vm_compute. eexists. reflexivity.
  - reflexivity.
  - reflexivity.
  - discriminate.
  - reflexivity.
Defined.

(** X12: With true altitude in geographic mode the configured [ele], [azi] and
    [rng] are not read: two configurations that differ in them only give
    the same run. *)
Theorem true_altitude_ignores_antenna_keys
    (E : Extern) (procstatus : Z) (dscfg dscfg' : DsCfg)
    (radar : option Volume) :
  cfg_latlon dscfg = true -> cfg_truealt dscfg = true ->
  cfg_datatype dscfg' = cfg_datatype dscfg ->
  cfg_latlon dscfg' = cfg_latlon dscfg ->
  cfg_truealt dscfg' = cfg_truealt dscfg ->
  cfg_lon dscfg' = cfg_lon dscfg ->
  cfg_lat dscfg' = cfg_lat dscfg ->
  cfg_alt dscfg' = cfg_alt dscfg ->
  cfg_AziTol dscfg' = cfg_AziTol dscfg ->
  cfg_EleTol dscfg' = cfg_EleTol dscfg ->
  cfg_RngTol dscfg' = cfg_RngTol dscfg ->
  process_point_measurement E procstatus dscfg' radar
  = process_point_measurement E procstatus dscfg radar.
Proof.
  destruct dscfg, dscfg'. simpl.
  intros -> -> -> -> -> -> -> -> -> -> ->. reflexivity.
Qed.

Lemma true_altitude_ignores_antenna_keys_witness :
  process_point_measurement Double.extern 1
    {| cfg_datatype := ["dBZ"]; cfg_latlon := true; cfg_truealt := true;
       cfg_lon := 1600; cfg_lat := 10; cfg_alt := 4;
       cfg_ele := 45; cfg_azi := 270; cfg_rng := 7;
       cfg_AziTol := 5; cfg_EleTol := 5; cfg_RngTol := 200 |}
    (Some Double.volume)
  = process_point_measurement Double.extern 1
      (Double.query 10 4 1600 5 5 200) (Some Double.volume).
Proof.
  apply true_altitude_ignores_antenna_keys; reflexivity.
Defined.

End Failures.

(** ** More on the registry *)

Section RegistryMore.
Import Registry.

Lemma get_process_type_outside (dataset_type : string) :
  dataset_type ∉ recognized ->
  get_process_type dataset_type
  = Raise (ValueError ("ERROR: Unknown dataset type " ++ dataset_type)).
Proof.
  intros Hnot. unfold get_process_type.
  repeat match goal with
  | |- context [String.eqb dataset_type ?s] =>
      rewrite (eqb_false_of_ne dataset_type s);
      [ | intros ->; apply Hnot; apply list_elem_of_In; simpl; tauto ]
  end.
  reflexivity.
Qed.

Lemma get_process_type_inv (dataset_type : string) (r : string * string) :
  get_process_type dataset_type = Return r -> In dataset_type recognized.
Proof.
  intros Hret. destruct (decide (dataset_type ∈ recognized)) as [Hin | Hnot].
  - now apply list_elem_of_In.
  - rewrite (get_process_type_outside _ Hnot) in Hret. discriminate Hret.
Qed.

(** X1: No two dataset types share a processing function: the function name
    [get_process_type] returns determines the dataset type. *)
Theorem handlers_are_distinct
    (type1 type2 func_name dsformat1 dsformat2 : string) :
  get_process_type type1 = Return (func_name, dsformat1) ->
  get_process_type type2 = Return (func_name, dsformat2) ->
  type1 = type2.
Proof.
  intros H1 H2.
  pose proof (get_process_type_inv _ _ H1) as Hin1.
  pose proof (get_process_type_inv _ _ H2) as Hin2.
  unfold recognized in Hin1.
  repeat (destruct Hin1 as [<- | Hin1];
    [ vm_compute in H1; injection H1 as <- <-;
      unfold recognized in Hin2;
      repeat (destruct Hin2 as [<- | Hin2];
              [ first [reflexivity | vm_compute in H2; discriminate H2] | ]);
      destruct Hin2
    | ]).
  destruct Hin1.
Qed.

Lemma handlers_are_distinct_witness : "SAN" = "SAN".
Proof.
  apply (handlers_are_distinct "SAN" "SAN" "process_echo_id" "VOL" "VOL");
    reflexivity.
Defined.

End RegistryMore.

(** ** More on the pass-through routines *)

Section HeapMore.
Import Heap.
Local Open Scope list_scope.

Lemma deepcopy_independent
    (σ σ' : gmap loc ndarray) (radar new_dataset : Radar) :
  allocated σ radar ->
  deepcopy (Some radar) σ = (Some new_dataset, σ') ->
  (forall l, l ∈ dom σ -> σ' !! l = σ !! l) /\
  contents σ' radar = contents σ radar /\
  contents σ' new_dataset = contents σ radar /\
  (forall l, l ∈ locs new_dataset -> (l ∉ dom σ) /\ (l ∉ locs radar)) /\
  (forall l a, l ∈ locs new_dataset ->
     contents (<[l := a]> σ') radar = contents σ radar) /\
  (forall l a, l ∈ locs radar ->
     contents (<[l := a]> σ') new_dataset = contents σ radar).
Proof.
  intros Halloc Hrun.
  assert (Hinv : copy_inv σ (∅, σ)).
  { split; [reflexivity |]. intros l l' Hl. simpl in Hl.
    now rewrite lookup_empty in Hl. }
  destruct (deepcopy_from_spec σ (∅, σ) radar Hinv Halloc)
    as (r' & st & Hfrom & _ & Hsub & Hcopy).
  unfold deepcopy in Hrun. rewrite Hfrom in Hrun.
  injection Hrun as <- <-. simpl in Hsub.
  assert (Hold : forall l, l ∈ dom σ -> snd st !! l = σ !! l).
  { intros l Hl. apply elem_of_dom in Hl as [a Ha]. rewrite Ha.
    eapply lookup_weaken; eauto. }
  assert (Hfresh : forall l, l ∈ locs r' -> l ∉ dom σ).
  { intros l. now apply (copy_of_fresh σ (snd st) radar). }
  assert (Hinput : contents (snd st) radar = contents σ radar).
  { apply contents_ext. intros l Hl. apply Hold.
    now apply (allocated_dom σ radar). }
  assert (Hnew : contents (snd st) r' = contents σ radar)
    by now apply contents_copy_of.
  split; [exact Hold |]. split; [exact Hinput |]. split; [exact Hnew |].
  split; [| split].
  - intros l Hl. split; [now apply Hfresh |].
    intros Hin. apply (Hfresh l Hl). now apply (allocated_dom σ radar).
  - intros l a Hl. rewrite <- Hinput. apply contents_ext. intros l2 Hl2.
    apply lookup_insert_ne. intros ->.
    apply (Hfresh l2 Hl). now apply (allocated_dom σ radar).
  - intros l a Hl. rewrite <- Hnew. apply contents_ext. intros l2 Hl2.
    apply lookup_insert_ne. intros ->.
    apply (Hfresh l2 Hl2). now apply (allocated_dom σ radar).
Qed.

(** X2: In the PROCESS phase [process_save_radar] too returns a deep copy:
    the arrays that were in the store are unchanged, the returned object
    holds the same contents at new locations, and a write to either
    object does not show in the other. *)
Theorem process_save_radar_deep_copy
    (σ : gmap loc ndarray) (dscfg : DsCfg) (radar : Radar) :
  allocated σ radar ->
  exists (new_dataset : Radar) (σ' : gmap loc ndarray),
    process_save_radar 1 dscfg (Some radar) σ = (Some new_dataset, σ') /\
    (forall l, l ∈ dom σ -> σ' !! l = σ !! l) /\
    contents σ' radar = contents σ radar /\
    contents σ' new_dataset = contents σ radar /\
    (forall l, l ∈ locs new_dataset -> (l ∉ dom σ) /\ (l ∉ locs radar)) /\
    (forall l a, l ∈ locs new_dataset ->
       contents (<[l := a]> σ') radar = contents σ radar) /\
    (forall l a, l ∈ locs radar ->
       contents (<[l := a]> σ') new_dataset = contents σ radar).
Proof.
  intros Halloc.
  destruct (deepcopy (Some radar) σ) as [new_dataset σ'] eqn:Hrun.
  assert (exists r', new_dataset = Some r') as [r' ->].
  { unfold deepcopy in Hrun.
    destruct (deepcopy_from radar (∅, σ)) as [r' st].
    injection Hrun as <- _. now exists r'. }
  exists r', σ'. split.
  - unfold process_save_radar. simpl negb. cbv iota. now rewrite Hrun.
  - now apply deepcopy_independent.
Qed.

Lemma process_save_radar_deep_copy_witness :
  exists (new_dataset : Radar) (σ' : gmap loc ndarray),
    process_save_radar 1 (Double.query 10 4 1600 5 5 200)
      (Some Double.radar) Double.store
    = (Some new_dataset, σ') /\
    contents σ' Double.radar = contents Double.store Double.radar /\
    contents σ' new_dataset = contents Double.store Double.radar.
Proof.
  destruct (process_save_radar_deep_copy Double.store
              (Double.query 10 4 1600 5 5 200) Double.radar)
    as (new_dataset & σ' & Hrun & _ & Hinput & Hnew & _).
  - unfold allocated. repeat constructor; vm_compute; eexists; reflexivity.
  - exists new_dataset, σ'. repeat split; assumption.
Defined.

Lemma copy_array_memo
    (σ0 : gmap loc ndarray) (st : copy_state) (l : loc) :
  copy_inv σ0 st -> memo_injective st -> is_Some (σ0 !! l) ->
  exists l' st', copy_array l st = (l', st') /\
    copy_inv σ0 st' /\ memo_injective st' /\
    (fst st ⊆ fst st') /\ fst st' !! l = Some l'.
Proof.
  intros Hinv Hinj Hl.
  destruct (copy_array_spec σ0 st l Hinv Hl)
    as (l' & st' & Hrun & Hinv' & _ & _).
  exists l', st'. split; [exact Hrun |]. split; [exact Hinv' |].
  destruct Hinv as [Hsub Hmemo]. destruct Hl as [a Ha].
  destruct st as [memo σ]. unfold copy_array in Hrun. simpl in *.
  destruct (memo !! l) as [l1 |] eqn:Hmemo_l.
  - injection Hrun as <- <-. repeat split; [exact Hinj | reflexivity | exact Hmemo_l].
  - rewrite (lookup_weaken _ _ _ _ Ha Hsub) in Hrun.
    injection Hrun as <- <-. simpl.
    assert (Hnew : fresh (dom σ) ∉ dom σ) by apply is_fresh.
    assert (Hold : forall l2 l2', memo !! l2 = Some l2' -> l2' ≠ fresh (dom σ)).
    { intros l2 l2' Hl2 ->. apply Hnew.
      destruct (Hmemo _ _ Hl2) as (_ & [a2 Ha2] & Hcopy).
      apply elem_of_dom. exists a2. now rewrite Hcopy. }
    split; [| split; [now apply insert_subseteq | apply lookup_insert_eq]].
    intros l1 l2 l0 H1 H2. simpl in H1, H2.
    destruct (decide (l = l1)) as [<- | Hne1];
      destruct (decide (l = l2)) as [<- | Hne2]; try reflexivity.
    + rewrite lookup_insert_eq in H1. injection H1 as <-.
      rewrite lookup_insert_ne in H2 by exact Hne2.
      now destruct (Hold _ _ H2).
    + rewrite lookup_insert_eq in H2. injection H2 as <-.
      rewrite lookup_insert_ne in H1 by exact Hne1.
      now destruct (Hold _ _ H1).
    + rewrite lookup_insert_ne in H1 by exact Hne1.
      rewrite lookup_insert_ne in H2 by exact Hne2.
      now apply (Hinj l1 l2 l0).
Qed.

Lemma copy_fields_memo (fs : list (string * loc)) :
  forall (σ0 : gmap loc ndarray) (st : copy_state),
  copy_inv σ0 st -> memo_injective st ->
  Forall (fun l => is_Some (σ0 !! l)) (List.map snd fs) ->
  exists fs' st', copy_fields fs st = (fs', st') /\
    copy_inv σ0 st' /\ memo_injective st' /\ (fst st ⊆ fst st') /\
    Forall2 (fun l l' => fst st' !! l = Some l')
            (List.map snd fs) (List.map snd fs').
Proof.
  induction fs as [| [k l] fs IH]; intros σ0 st Hinv Hinj Hall; simpl.
  - exists [], st. split; [reflexivity |]. split; [exact Hinv |].
    split; [exact Hinj |]. split; [reflexivity | constructor].
  - apply Forall_cons in Hall as [Hl Hall]. simpl in Hl.
    destruct (copy_array_memo σ0 st l Hinv Hinj Hl)
      as (l' & st1 & -> & Hinv1 & Hinj1 & Hsub1 & Hl').
    destruct (IH σ0 st1 Hinv1 Hinj1 Hall)
      as (fs' & st2 & -> & Hinv2 & Hinj2 & Hsub2 & Hall').
    exists ((k, l') :: fs'), st2. split; [reflexivity |].
    split; [exact Hinv2 |]. split; [exact Hinj2 |].
    split; [now transitivity (fst st1) |].
    simpl. constructor; [| exact Hall'].
    eapply lookup_weaken; eauto.
Qed.

Lemma deepcopy_from_memo
    (σ0 : gmap loc ndarray) (st : copy_state) (r : Radar) :
  copy_inv σ0 st -> memo_injective st -> allocated σ0 r ->
  exists r' st', deepcopy_from r st = (r', st') /\
    memo_injective st' /\
    Forall2 (fun l l' => fst st' !! l = Some l') (locs r) (locs r').
Proof.
  intros Hinv Hinj Halloc. unfold allocated, locs in Halloc.
  apply Forall_app in Halloc as [Hhead Hfields].
  repeat match goal with
  | H : Forall _ (_ :: _) |- _ =>
      let Hl := fresh "Hl" in apply Forall_cons in H as [Hl H]
  end.
  unfold deepcopy_from.
  destruct (copy_array_memo σ0 st _ Hinv Hinj Hl)
    as (t & st1 & -> & Hinv1 & Hinj1 & Hsub1 & Hm1).
  destruct (copy_array_memo σ0 st1 _ Hinv1 Hinj1 Hl0)
    as (rg & st2 & -> & Hinv2 & Hinj2 & Hsub2 & Hm2).
  destruct (copy_array_memo σ0 st2 _ Hinv2 Hinj2 Hl1)
    as (az & st3 & -> & Hinv3 & Hinj3 & Hsub3 & Hm3).
  destruct (copy_array_memo σ0 st3 _ Hinv3 Hinj3 Hl2)
    as (el & st4 & -> & Hinv4 & Hinj4 & Hsub4 & Hm4).
  destruct (copy_array_memo σ0 st4 _ Hinv4 Hinj4 Hl3)
    as (lon & st5 & -> & Hinv5 & Hinj5 & Hsub5 & Hm5).
  destruct (copy_array_memo σ0 st5 _ Hinv5 Hinj5 Hl4)
    as (lat & st6 & -> & Hinv6 & Hinj6 & Hsub6 & Hm6).
  destruct (copy_array_memo σ0 st6 _ Hinv6 Hinj6 Hl5)
    as (alt & st7 & -> & Hinv7 & Hinj7 & Hsub7 & Hm7).
  destruct (copy_fields_memo (r_fields r) σ0 st7 Hinv7 Hinj7 Hfields)
    as (fs & st8 & -> & Hinv8 & Hinj8 & Hsub8 & Hms).
  eexists _, st8. split; [reflexivity |]. split; [exact Hinj8 |].
  assert (H78 : fst st7 ⊆ fst st8) by exact Hsub8.
  assert (H68 : fst st6 ⊆ fst st8) by now transitivity (fst st7).
  assert (H58 : fst st5 ⊆ fst st8) by now transitivity (fst st6).
  assert (H48 : fst st4 ⊆ fst st8) by now transitivity (fst st5).
  assert (H38 : fst st3 ⊆ fst st8) by now transitivity (fst st4).
  assert (H28 : fst st2 ⊆ fst st8) by now transitivity (fst st3).
  assert (H18 : fst st1 ⊆ fst st8) by now transitivity (fst st2).
  unfold locs. simpl.
  repeat (constructor; [eapply lookup_weaken; eauto |]).
  exact Hms.
Qed.

(** X3: The copy [process_raw] returns has the sharing of the original: two
    slots of the copy refer to the same array exactly when the two slots
    of the input do. *)
Theorem process_raw_keeps_sharing
    (σ σ' : gmap loc ndarray) (dscfg : DsCfg) (radar new_dataset : Radar)
    (i j : nat) (li lj li' lj' : loc) :
  allocated σ radar ->
  process_raw 1 dscfg (Some radar) σ = (Some new_dataset, σ') ->
  locs radar !! i = Some li -> locs radar !! j = Some lj ->
  locs new_dataset !! i = Some li' -> locs new_dataset !! j = Some lj' ->
  (li = lj <-> li' = lj').
Proof.
  intros Halloc Hrun Hi Hj Hi' Hj'.
  assert (Hinv : copy_inv σ (∅, σ)).
  { split; [reflexivity |]. intros l l' Hl. simpl in Hl.
    now rewrite lookup_empty in Hl. }
  assert (Hinj : memo_injective (∅, σ)).
  { intros l1 l2 l' Hl. simpl in Hl. now rewrite lookup_empty in Hl. }
  destruct (deepcopy_from_memo σ (∅, σ) radar Hinv Hinj Halloc)
    as (r' & st & Hfrom & Hinj' & Hmemo).
  unfold process_raw, deepcopy in Hrun. simpl negb in Hrun.
  cbv iota in Hrun. rewrite Hfrom in Hrun. injection Hrun as <- _.
  destruct (Forall2_lookup_l _ _ _ _ _ Hmemo Hi) as (xi & Hxi & Hmi).
  destruct (Forall2_lookup_l _ _ _ _ _ Hmemo Hj) as (xj & Hxj & Hmj).
  assert (xi = li') as -> by congruence.
  assert (xj = lj') as -> by congruence.
  split.
  - intros ->. congruence.
  - intros ->. now apply (Hinj' li lj lj').
Qed.

Lemma process_raw_keeps_sharing_witness :
  (1%positive = 2%positive <-> 9%positive = 10%positive).
Proof.
  refine (process_raw_keeps_sharing Double.store _
            (Double.query 10 4 1600 5 5 200) Double.radar _
            0%nat 1%nat _ _ _ _ _ _ _ _ _ _).
  - unfold allocated. repeat constructor; vm_compute; eexists; reflexivity.
  - vm_compute. reflexivity.
  - reflexivity.
  - reflexivity.
  - reflexivity.
  - reflexivity.
Defined.

End HeapMore.

(** ** Trajectory products *)

Section TrajFacts.
Import Traj.
Local Open Scope list_scope.

Context {timestamp : Type}.
Variable E : Extern timestamp.

Lemma traj_bind_ret {A B : Type} (a : A) (k : A -> T timestamp B) :
  Traj.bind (Traj.ret a) k = k a.
Proof. unfold Traj.bind, Traj.ret. now destruct (k a). Qed.

Lemma traj_getkey_Some (d : gmap string pyval) (k : string) (v : pyval) :
  d !! k = Some v -> Traj.getkey (timestamp := timestamp) d k = Traj.ret v.
Proof. unfold Traj.getkey. now intros ->. Qed.

Lemma traj_bind_called {B : Type} (c : call timestamp)
    (k : unit -> T timestamp B) :
  Traj.bind (called c) k = (fst (k tt), c :: snd (k tt)).
Proof. unfold Traj.bind, called. now destruct (k tt). Qed.

(** The second statement: [dssavename], when present, replaces
    [dsname]. *)
Lemma dssavedir_step {B : Type}
    (prdcfg : gmap string pyval) (dsname dssavedir : pyval)
    (k : pyval -> T timestamp B) :
  prdcfg !! "dsname" = Some dsname ->
  save_name prdcfg = Some dssavedir ->
  Traj.bind (if bool_decide ("dssavename" ∈ dom prdcfg)
             then Traj.getkey prdcfg "dssavename"
             else Traj.ret dsname) k
  = k dssavedir.
Proof.
  unfold save_name. intros Hds Hname.
  destruct (prdcfg !! "dssavename") as [v |] eqn:Hsave.
  - injection Hname as <-.
    rewrite bool_decide_eq_true_2 by (apply elem_of_dom; eauto).
    now rewrite (traj_getkey_Some _ _ _ Hsave), traj_bind_ret.
  - rewrite bool_decide_eq_false_2 by now apply not_elem_of_dom.
    rewrite Hds in Hname. injection Hname as <-. apply traj_bind_ret.
Qed.

Lemma save_name_is_Some (prdcfg : gmap string pyval) (dsname : pyval) :
  prdcfg !! "dsname" = Some dsname -> is_Some (save_name prdcfg).
Proof.
  unfold save_name. intros ->. destruct (prdcfg !! "dssavename"); eauto.
Qed.

(** Rewrite the look-ups of a run with what the hypotheses say. *)
Ltac look_up :=
  repeat match goal with
  | H : ?d !! ?k = Some ?v |- context [Traj.getkey ?d ?k] =>
      rewrite (traj_getkey_Some d k v H), ?traj_bind_ret
  end.

(** X14: A product type other than ['TRAJ_PLOT'], ['TRAJ_TEXT'] and
    ['TRAJ_MAP'] raises an exception that names the type and the dataset,
    before any other module is called; the trajectory is not looked at. *)
Theorem unsupported_type_raises
    (traj : Trajectory timestamp) (prdcfg : gmap string pyval)
    (dsname type : pyval) :
  prdcfg !! "dsname" = Some dsname ->
  prdcfg !! "type" = Some type ->
  type <> PStr "TRAJ_PLOT" ->
  type <> PStr "TRAJ_TEXT" ->
  type <> PStr "TRAJ_MAP" ->
  generate_traj_product E traj prdcfg
  = (Err (Exception
            "ERROR: Unsupported product type: '%s' of dataset '%s'"
            [type; dsname]), []).
Proof.
  intros Hds Hty Hplot Htext Hmap.
  destruct (save_name_is_Some _ _ Hds) as [dssavedir Hname].
  unfold generate_traj_product.
  rewrite (traj_getkey_Some _ _ _ Hds), traj_bind_ret.
  rewrite (dssavedir_step _ _ _ _ Hds Hname).
  look_up. rewrite bool_decide_eq_false_2 by exact Hplot.
  look_up. rewrite bool_decide_eq_false_2 by exact Htext.
  look_up. rewrite bool_decide_eq_false_2 by exact Hmap.
  look_up. reflexivity.
Qed.

(** X15: [dsname] is required even when [dssavename] is given: without it the
    call raises [KeyError('dsname')] before anything else. *)
Theorem dsname_is_required
    (traj : Trajectory timestamp) (prdcfg : gmap string pyval) :
  prdcfg !! "dsname" = None ->
  generate_traj_product E traj prdcfg = (Err (KeyError "dsname"), []).
Proof.
  intros Hds. unfold generate_traj_product, Traj.getkey at 1.
  now rewrite Hds.
Qed.

(** X16: An empty trajectory: for each of the three product types the call
    raises [IndexError] at [traj.time_vector[0]], before any other module
    is called. *)
Theorem empty_trajectory_raises
    (traj : Trajectory timestamp) (prdcfg : gmap string pyval)
    (dsname : pyval) (type : string) :
  prdcfg !! "dsname" = Some dsname ->
  prdcfg !! "type" = Some (PStr type) ->
  type = "TRAJ_PLOT" \/ type = "TRAJ_TEXT" \/ type = "TRAJ_MAP" ->
  time_vector traj = [] ->
  generate_traj_product E traj prdcfg = (Err IndexError, []).
Proof.
  intros Hds Hty Hknown Hempty.
  destruct (save_name_is_Some _ _ Hds) as [dssavedir Hname].
  unfold generate_traj_product.
  rewrite (traj_getkey_Some _ _ _ Hds), traj_bind_ret.
  rewrite (dssavedir_step _ _ _ _ Hds Hname).
  look_up. rewrite Hempty.
  destruct Hknown as [-> | [-> | ->]]; reflexivity.
Qed.

Lemma one_file_last_spec (cs : list (call timestamp)) :
  one_file_last cs = true ->
  exists before c,
    cs = before ++ [c] /\ writes_file c = true /\
    Forall (fun c' => writes_file c' = false) before.
Proof.
  unfold one_file_last. intros H.
  destruct (rev cs) as [| c before] eqn:Hrev; [discriminate |].
  apply andb_true_iff in H as [Hc Hbefore].
  exists (rev before), c. split; [| split; [exact Hc |]].
  - rewrite <- (rev_involutive cs), Hrev. reflexivity.
  - apply Forall_forall. intros c' Hc'.
    rewrite forallb_forall in Hbefore.
    apply negb_true_iff, Hbefore, in_rev, list_elem_of_In. exact Hc'.
Qed.

Lemma bind_no_file {A B : Type}
    (m : T timestamp A) (k : A -> T timestamp B) :
  no_file (snd m) -> (forall a, no_file (snd (k a))) ->
  no_file (snd (Traj.bind m k)).
Proof.
  intros Hm Hk. destruct m as [[a | e] cs]; simpl in *; [| exact Hm].
  specialize (Hk a). destruct (k a) as [r cs']. simpl in *.
  now apply Forall_app.
Qed.

Lemma bind_files_ok {A B : Type}
    (m : T timestamp A) (k : A -> T timestamp B) :
  no_file (snd m) -> (forall a, files_ok (k a)) ->
  files_ok (Traj.bind m k).
Proof.
  intros Hm Hk. destruct m as [[a | e] cs]; simpl in *; [| exact Hm].
  specialize (Hk a). unfold files_ok in *.
  destruct (k a) as [[b | e] cs']; simpl in *.
  - destruct Hk as (before & c & -> & Hc & Hbefore).
    exists (cs ++ before), c. rewrite app_assoc.
    split; [reflexivity |]. split; [exact Hc |]. now apply Forall_app.
  - now apply Forall_app.
Qed.

Lemma getkey_no_file (d : gmap string pyval) (k : string) :
  no_file (snd (Traj.getkey (timestamp := timestamp) d k)).
Proof. unfold Traj.getkey. destruct (d !! k); constructor. Qed.

Lemma first_no_file {A : Type} (l : list A) :
  no_file (snd (Traj.first (timestamp := timestamp) l)).
Proof. destruct l; constructor. Qed.

Lemma ret_no_file {A : Type} (a : A) :
  no_file (snd (Traj.ret (timestamp := timestamp) a)).
Proof. constructor. Qed.

Lemma called_no_file (c : call timestamp) :
  writes_file c = false -> no_file (snd (called c)).
Proof. intros H. now repeat constructor. Qed.

(** The pieces of a run that only prepare. *)
Ltac prepares :=
  repeat first
    [ apply getkey_no_file
    | apply first_no_file
    | apply ret_no_file
    | apply called_no_file; reflexivity
    | apply bind_no_file; [| intros ?]
    | match goal with
      | |- no_file (snd (if ?b then _ else _)) => destruct b
      end ].

Lemma save_dir_no_file
    (prdcfg : gmap string pyval) (dssavedir : pyval) (timeinfo : timestamp) :
  no_file (snd (save_dir E prdcfg dssavedir timeinfo)).
Proof. unfold save_dir. prepares. Qed.

Lemma image_names_no_file
    (prdcfg : gmap string pyval) (info : string) (timeinfo : timestamp) :
  no_file (snd (image_names E prdcfg info timeinfo)).
Proof. unfold image_names. prepares. Qed.

Lemma add_dataseries_no_file
    (traj : Trajectory timestamp) (label unit_name units : string)
    (vec : RadarTraj -> list Q) :
  no_file (snd (add_dataseries traj label unit_name units vec)).
Proof. unfold add_dataseries. prepares. Qed.

Lemma output_files_ok (c : call timestamp) :
  writes_file c = true ->
  files_ok (Traj.bind (called c) (fun _ => Traj.ret tt)).
Proof.
  intros Hc. exists [], c. split; [reflexivity |].
  split; [exact Hc | constructor].
Qed.

Lemma raise_files_ok {A : Type} (e : raised) :
  files_ok (Traj.raise (timestamp := timestamp) (A := A) e).
Proof. constructor. Qed.

(** The whole run, piece by piece. *)
Ltac runs :=
  repeat first
    [ apply output_files_ok; reflexivity
    | apply raise_files_ok
    | apply bind_files_ok;
        [ first [ apply save_dir_no_file | apply image_names_no_file
                | apply add_dataseries_no_file | prepares ]
        | intros ? ]
    | match goal with
      | |- files_ok (if ?b then _ else _) => destruct b
      end ].

(** X13: Whatever the trajectory and the configuration: a call that returns
    has made exactly one file-producing call ([plot], [write] or
    [plot_pos]), as its last call into another module; a call that raises
    has made none. *)
Theorem one_file_or_none
    (traj : Trajectory timestamp) (prdcfg : gmap string pyval) :
  match fst (generate_traj_product E traj prdcfg) with
  | Ok _ =>
      exists before c,
        snd (generate_traj_product E traj prdcfg) = before ++ [c] /\
        writes_file c = true /\
        Forall (fun c' => writes_file c' = false) before
  | Err _ =>
      Forall (fun c => writes_file c = false)
        (snd (generate_traj_product E traj prdcfg))
  end.
Proof.
  change (files_ok (generate_traj_product E traj prdcfg)).
  unfold generate_traj_product. runs.
Qed.

(** Settle the comparisons of a product type or data type that is
    known. *)
Ltac compare :=
  repeat first
    [ rewrite bool_decide_eq_true_2 by reflexivity
    | rewrite bool_decide_eq_false_2 by congruence ].

(** X17: A ['TRAJ_TEXT'] product: one csv file, named by the first name
    [make_filename] returns, in the directory of [dssavename] or else
    [dsname], holding seven series of the first radar in the order
    elevation, azimuth, range, absolute, radial, elevation and azimuth
    speed. *)
Theorem traj_text_writes_seven_series
    (traj : Trajectory timestamp) (prdcfg : gmap string pyval)
    (dsname dssavedir basepath procname prdname dstype runinfo : pyval)
    (t0 : timestamp) (ts : list timestamp)
    (radar : RadarTraj) (radars : list RadarTraj)
    (fname0 : string) (fnames : list string) :
  prdcfg !! "dsname" = Some dsname ->
  save_name prdcfg = Some dssavedir ->
  prdcfg !! "type" = Some (PStr "TRAJ_TEXT") ->
  prdcfg !! "basepath" = Some basepath ->
  prdcfg !! "procname" = Some procname ->
  prdcfg !! "prdname" = Some prdname ->
  prdcfg !! "dstype" = Some dstype ->
  prdcfg !! "runinfo" = Some runinfo ->
  time_vector traj = t0 :: ts ->
  radar_list traj = radar :: radars ->
  make_filename E "ts" dstype "TRAJ" (PList ["csv"]) PNone t0
    "%Y%m%d%H%M%S" runinfo = fname0 :: fnames ->
  generate_traj_product E traj prdcfg
  = (Ok tt,
     [ get_save_dir_call basepath procname dssavedir prdname t0;
       make_filename_call "ts" dstype "TRAJ" (PList ["csv"]) PNone t0
         "%Y%m%d%H%M%S" runinfo;
       TimeSeries_call
         (PList ["Description:";
                 "Time series of a plane trajectory in radar coordinates."])
         (t0 :: ts) "%Y-%m-%d %H:%M:%S.%f";
       add_dataseries_call "Elevation" "Elevation" "deg"
         (elevation_vec radar);
       add_dataseries_call "Azimuth" "Azimuth" "deg" (azimuth_vec radar);
       add_dataseries_call "Range" "Range" "m" (range_vec radar);
       add_dataseries_call "Absolute Speed" "Absolute Speed" "m/s"
         (v_abs radar);
       add_dataseries_call "Radial Speed" "Radial Speed" "m/s" (v_r radar);
       add_dataseries_call "Elevation Speed" "Elevation Speed" "deg/s"
         (v_el radar);
       add_dataseries_call "Azimuth Speed" "Azimuth Speed" "deg/s"
         (v_az radar);
       write_call (get_save_dir E basepath procname dssavedir prdname t0
                   ++ fname0)%string ]).
Proof.
  intros Hds Hname Hty Hbase Hproc Hprd Hdst Hrun Htime Hradar Hfile.
  unfold generate_traj_product, save_dir, add_dataseries.
  rewrite (traj_getkey_Some _ _ _ Hds), traj_bind_ret.
  rewrite (dssavedir_step _ _ _ _ Hds Hname).
  look_up. compare. look_up. compare.
  rewrite Htime, Hradar. simpl Traj.first. rewrite traj_bind_ret.
  look_up. cbn. rewrite Hfile. reflexivity.
Qed.

(** X18: A ['TRAJ_PLOT'] product of data type ['EL'], ['AZ'] or ['RANGE']:
    one series of the first radar (elevation, azimuth or range) is plotted
    to one file, named by the first name [make_filename] returns; further
    names, one per image format, are not used. *)
Theorem traj_plot_plots_one_series
    (traj : Trajectory timestamp) (prdcfg : gmap string pyval)
    (info label units : string) (vec : RadarTraj -> list Q)
    (dsname dssavedir basepath procname prdname dstype imgformat runinfo
       : pyval)
    (t0 : timestamp) (ts : list timestamp)
    (radar : RadarTraj) (radars : list RadarTraj)
    (fname0 : string) (fnames : list string) :
  (info, label, units, vec) = ("EL", "Elevation", "deg", elevation_vec) \/
  (info, label, units, vec) = ("AZ", "Azimuth", "deg", azimuth_vec) \/
  (info, label, units, vec) = ("RANGE", "Range", "m", range_vec) ->
  prdcfg !! "dsname" = Some dsname ->
  save_name prdcfg = Some dssavedir ->
  prdcfg !! "type" = Some (PStr "TRAJ_PLOT") ->
  prdcfg !! "datatype" = Some (PStr info) ->
  prdcfg !! "basepath" = Some basepath ->
  prdcfg !! "procname" = Some procname ->
  prdcfg !! "prdname" = Some prdname ->
  prdcfg !! "dstype" = Some dstype ->
  prdcfg !! "imgformat" = Some imgformat ->
  prdcfg !! "runinfo" = Some runinfo ->
  time_vector traj = t0 :: ts ->
  radar_list traj = radar :: radars ->
  make_filename E "ts" dstype "TRAJ" imgformat (PStr info) t0
    "%Y%m%d%H%M%S" runinfo = fname0 :: fnames ->
  generate_traj_product E traj prdcfg
  = (Ok tt,
     [ get_save_dir_call basepath procname dssavedir prdname t0;
       TimeSeries_call (PStr "") (t0 :: ts) "%Y-%m-%d %H:%M:%S.%f";
       make_filename_call "ts" dstype "TRAJ" imgformat (PStr info) t0
         "%Y%m%d%H%M%S" runinfo;
       add_dataseries_call label label units (vec radar);
       plot_call (get_save_dir E basepath procname dssavedir prdname t0
                  ++ fname0)%string ]).
Proof.
  intros Hcase Hds Hname Hty Hdt Hbase Hproc Hprd Hdst Himg Hrun
    Htime Hradar Hfile.
  unfold generate_traj_product, save_dir, image_names, add_dataseries.
  rewrite (traj_getkey_Some _ _ _ Hds), traj_bind_ret.
  rewrite (dssavedir_step _ _ _ _ Hds Hname).
  look_up. compare. rewrite Htime, Hradar. simpl Traj.first.
  rewrite traj_bind_ret. look_up.
  destruct Hcase as [Hcase | [Hcase | Hcase]];
    injection Hcase as -> -> -> ->;
    cbn; rewrite Hfile; reflexivity.
Qed.

(** X19: A ['TRAJ_PLOT'] product of another data type raises an exception that
    names the data type and the dataset; by then the save directory has
    been asked for and the time series created, and nothing is plotted. *)
Theorem traj_plot_unknown_datatype
    (traj : Trajectory timestamp) (prdcfg : gmap string pyval)
    (dsname dssavedir datatype basepath procname prdname : pyval)
    (t0 : timestamp) (ts : list timestamp) :
  prdcfg !! "dsname" = Some dsname ->
  save_name prdcfg = Some dssavedir ->
  prdcfg !! "type" = Some (PStr "TRAJ_PLOT") ->
  prdcfg !! "datatype" = Some datatype ->
  datatype <> PStr "EL" -> datatype <> PStr "AZ" ->
  datatype <> PStr "RANGE" ->
  prdcfg !! "basepath" = Some basepath ->
  prdcfg !! "procname" = Some procname ->
  prdcfg !! "prdname" = Some prdname ->
  time_vector traj = t0 :: ts ->
  generate_traj_product E traj prdcfg
  = (Err (Exception "ERROR: Unknown datatype '%s' (dataset: '%s')"
            [datatype; dsname]),
     [ get_save_dir_call basepath procname dssavedir prdname t0;
       TimeSeries_call (PStr "") (t0 :: ts) "%Y-%m-%d %H:%M:%S.%f" ]).
Proof.
  intros Hds Hname Hty Hdt Hel Haz Hrange Hbase Hproc Hprd Htime.
  unfold generate_traj_product, save_dir.
  rewrite (traj_getkey_Some _ _ _ Hds), traj_bind_ret.
  rewrite (dssavedir_step _ _ _ _ Hds Hname).
  look_up. compare. rewrite Htime. simpl Traj.first.
  rewrite traj_bind_ret. look_up.
  cbn.
  rewrite (bool_decide_eq_false_2 _ Hel). cbn.
  rewrite (bool_decide_eq_false_2 _ Haz). cbn.
  rewrite (bool_decide_eq_false_2 _ Hrange). reflexivity.
Qed.

Lemma prefix_names_from (savedir : string) (names : list string) :
  forall done : list string,
  prefix_names savedir (length names) (length done) (done ++ names)
  = done ++ ((fun fname => (savedir ++ fname)%string) <$> names).
Proof.
  induction names as [| fname names IH]; intros done; [reflexivity |].
  simpl prefix_names. rewrite list_lookup_middle by reflexivity.
  rewrite insert_app_r_alt by lia. rewrite Nat.sub_diag. simpl.
  specialize (IH (done ++ [(savedir ++ fname)%string])).
  rewrite length_app, Nat.add_1_r, <- !app_assoc in IH. exact IH.
Qed.

(** The loop of lines 144-146 puts the directory in front of every file
    name and keeps their number and order. *)
Lemma prefix_names_all (savedir : string) (names : list string) :
  prefix_names savedir (length names) 0 names
  = (fun fname => (savedir ++ fname)%string) <$> names.
Proof. apply (prefix_names_from savedir names []). Qed.

(** X20: A ['TRAJ_MAP'] product: [plot_pos] is called once with the latitudes,
    longitudes and altitudes of the trajectory and with every name
    [make_filename] returns, each with the save directory in front; the
    list of names may be empty. *)
Theorem traj_map_plots_all_names
    (traj : Trajectory timestamp) (prdcfg : gmap string pyval)
    (dsname dssavedir basepath procname prdname dstype imgformat runinfo
       : pyval)
    (t0 : timestamp) (ts : list timestamp) :
  prdcfg !! "dsname" = Some dsname ->
  save_name prdcfg = Some dssavedir ->
  prdcfg !! "type" = Some (PStr "TRAJ_MAP") ->
  prdcfg !! "basepath" = Some basepath ->
  prdcfg !! "procname" = Some procname ->
  prdcfg !! "prdname" = Some prdname ->
  prdcfg !! "dstype" = Some dstype ->
  prdcfg !! "imgformat" = Some imgformat ->
  prdcfg !! "runinfo" = Some runinfo ->
  time_vector traj = t0 :: ts ->
  let savedir := get_save_dir E basepath procname dssavedir prdname t0 in
  let names :=
    make_filename E "ts" dstype "TRAJ" imgformat (PStr "MAP") t0
      "%Y%m%d%H%M%S" runinfo in
  generate_traj_product E traj prdcfg
  = (Ok tt,
     [ get_save_dir_call basepath procname dssavedir prdname t0;
       make_filename_call "ts" dstype "TRAJ" imgformat (PStr "MAP") t0
         "%Y%m%d%H%M%S" runinfo;
       plot_pos_call (wgs84_lat_deg traj) (wgs84_lon_deg traj)
         (wgs84_alt_m traj)
         ((fun fname => (savedir ++ fname)%string) <$> names)
         "Altitude [m]" (Title "Trajectory Starting at  %s" t0 "%Y-%m-%d")
         true ]).
Proof.
  intros Hds Hname Hty Hbase Hproc Hprd Hdst Himg Hrun Htime. cbv zeta.
  unfold generate_traj_product, save_dir, image_names.
  rewrite (traj_getkey_Some _ _ _ Hds), traj_bind_ret.
  rewrite (dssavedir_step _ _ _ _ Hds Hname).
  look_up. compare. look_up. compare. look_up. compare.
  rewrite Htime. simpl Traj.first. rewrite traj_bind_ret. look_up.
  cbn. rewrite prefix_names_all. reflexivity.
Qed.

End TrajFacts.

(** ** Runs of the trajectory products *)

Section TrajRuns.
Import Traj.
Local Open Scope list_scope.
Local Open Scope Q_scope.

Lemma unsupported_type_raises_witness :
  generate_traj_product Traj.Double.extern Traj.Double.traj
    (Traj.Double.prdcfg "TRAJ_MOVIE" "EL")
  = (Err (Exception
            "ERROR: Unsupported product type: '%s' of dataset '%s'"
            [PStr "TRAJ_MOVIE"; PStr "traj"]), []).
Proof.
  apply unsupported_type_raises.
  - vm_compute. reflexivity.
  - vm_compute. reflexivity.
  - discriminate.
  - discriminate.
  - discriminate.
Defined.

Lemma dsname_is_required_witness :
  generate_traj_product Traj.Double.extern Traj.Double.traj
    {[ "dssavename" := PStr "archive"; "type" := PStr "TRAJ_TEXT" ]}
  = (Err (KeyError "dsname"), []).
Proof.
  apply dsname_is_required. vm_compute. reflexivity.
Defined.

Lemma empty_trajectory_raises_witness :
  generate_traj_product Traj.Double.extern
    {| time_vector := []; radar_list := []; wgs84_lat_deg := [];
       wgs84_lon_deg := []; wgs84_alt_m := [] |}
    (Traj.Double.prdcfg "TRAJ_MAP" "EL")
  = (Err IndexError, []).
Proof.
  apply (empty_trajectory_raises Traj.Double.extern _ _
           (PStr "traj") "TRAJ_MAP").
  - vm_compute. reflexivity.
  - vm_compute. reflexivity.
  - right. right. reflexivity.
  - reflexivity.
Defined.

Lemma traj_text_writes_seven_series_witness :
  generate_traj_product Traj.Double.extern Traj.Double.traj
    (<["dssavename" := PStr "archive"]> (Traj.Double.prdcfg "TRAJ_TEXT" "EL"))
  = (Ok tt,
     [ get_save_dir_call (PStr "/data/") (PStr "proc") (PStr "archive")
         (PStr "prd") 100%nat;
       make_filename_call "ts" (PStr "TRAJ_ONLY") "TRAJ" (PList ["csv"])
         PNone 100%nat "%Y%m%d%H%M%S" PNone;
       TimeSeries_call
         (PList ["Description:";
                 "Time series of a plane trajectory in radar coordinates."])
         [100%nat; 101%nat] "%Y-%m-%d %H:%M:%S.%f";
       add_dataseries_call "Elevation" "Elevation" "deg" [1; 2];
       add_dataseries_call "Azimuth" "Azimuth" "deg" [10; 20];
       add_dataseries_call "Range" "Range" "m" [500; 600];
       add_dataseries_call "Absolute Speed" "Absolute Speed" "m/s" [50; 51];
       add_dataseries_call "Radial Speed" "Radial Speed" "m/s" [5; 6];
       add_dataseries_call "Elevation Speed" "Elevation Speed" "deg/s"
         [0; 1];
       add_dataseries_call "Azimuth Speed" "Azimuth Speed" "deg/s" [2; 3];
       write_call "/data/archive/ts_TRAJ.csv" ]).
Proof.
  refine (traj_text_writes_seven_series Traj.Double.extern Traj.Double.traj
            _ (PStr "traj") (PStr "archive") (PStr "/data/") (PStr "proc")
            (PStr "prd") (PStr "TRAJ_ONLY") PNone 100%nat [101%nat]
            Traj.Double.radar [] "ts_TRAJ.csv" [] _ _ _ _ _ _ _ _ _ _ _);
    vm_compute; reflexivity.
Defined.

Lemma traj_plot_plots_one_series_witness :
  generate_traj_product Traj.Double.extern Traj.Double.traj
    (Traj.Double.prdcfg "TRAJ_PLOT" "AZ")
  = (Ok tt,
     [ get_save_dir_call (PStr "/data/") (PStr "proc") (PStr "traj")
         (PStr "prd") 100%nat;
       TimeSeries_call (PStr "") [100%nat; 101%nat] "%Y-%m-%d %H:%M:%S.%f";
       make_filename_call "ts" (PStr "TRAJ_ONLY") "TRAJ"
         (PList ["png"; "pdf"]) (PStr "AZ") 100%nat "%Y%m%d%H%M%S" PNone;
       add_dataseries_call "Azimuth" "Azimuth" "deg" [10; 20];
       plot_call "/data/traj/ts_TRAJ.png" ]).
Proof.
  refine (traj_plot_plots_one_series Traj.Double.extern Traj.Double.traj
            _ "AZ" "Azimuth" "deg" azimuth_vec
            (PStr "traj") (PStr "traj") (PStr "/data/") (PStr "proc")
            (PStr "prd") (PStr "TRAJ_ONLY") (PList ["png"; "pdf"]) PNone
            100%nat [101%nat] Traj.Double.radar [] "ts_TRAJ.png"
            ["ts_TRAJ.pdf"]
            _ _ _ _ _ _ _ _ _ _ _ _ _ _);
    try (vm_compute; reflexivity).
  right. left. reflexivity.
Defined.

Lemma traj_plot_unknown_datatype_witness :
  generate_traj_product Traj.Double.extern Traj.Double.traj
    (Traj.Double.prdcfg "TRAJ_PLOT" "SPEED")
  = (Err (Exception "ERROR: Unknown datatype '%s' (dataset: '%s')"
            [PStr "SPEED"; PStr "traj"]),
     [ get_save_dir_call (PStr "/data/") (PStr "proc") (PStr "traj")
         (PStr "prd") 100%nat;
       TimeSeries_call (PStr "") [100%nat; 101%nat]
         "%Y-%m-%d %H:%M:%S.%f" ]).
Proof.
  refine (traj_plot_unknown_datatype Traj.Double.extern Traj.Double.traj
            _ (PStr "traj") (PStr "traj") (PStr "SPEED") (PStr "/data/")
            (PStr "proc") (PStr "prd") 100%nat [101%nat]
            _ _ _ _ _ _ _ _ _ _ _);
    try discriminate; vm_compute; reflexivity.
Defined.

Lemma traj_map_plots_all_names_witness :
  generate_traj_product Traj.Double.extern Traj.Double.traj
    (Traj.Double.prdcfg "TRAJ_MAP" "EL")
  = (Ok tt,
     [ get_save_dir_call (PStr "/data/") (PStr "proc") (PStr "traj")
         (PStr "prd") 100%nat;
       make_filename_call "ts" (PStr "TRAJ_ONLY") "TRAJ"
         (PList ["png"; "pdf"]) (PStr "MAP") 100%nat "%Y%m%d%H%M%S" PNone;
       plot_pos_call [46; 47] [8; 9] [1000; 1100]
         ["/data/traj/ts_TRAJ.png"; "/data/traj/ts_TRAJ.pdf"]
         "Altitude [m]" (Title "Trajectory Starting at  %s" 100%nat "%Y-%m-%d")
         true ]).
Proof.
  refine (traj_map_plots_all_names Traj.Double.extern Traj.Double.traj
            _ (PStr "traj") (PStr "traj") (PStr "/data/") (PStr "proc")
            (PStr "prd") (PStr "TRAJ_ONLY") (PList ["png"; "pdf"]) PNone
            100%nat [101%nat] _ _ _ _ _ _ _ _ _ _);
    vm_compute; reflexivity.
Defined.

End TrajRuns.
